(** * Py-Online backend (src/backend.py): rate limiter, run and install handlers

    A shallow embedding of the Flask backend.  Python text is a list of
    Unicode code points, the module-level [rate_limit_cache] dictionary is a
    finite map, and the handlers are computations in a state-and-exception
    monad over a [world] holding the cache, the temporary files, the live
    child processes and a log of the operating-system calls made so far.
    What the operating system decides (the clock, the name of the temporary
    file, whether a write fails, how the child ends) is read from an [env]
    record, one per request.  A reading of the clock, [time.time()], is a
    rational number of seconds. *)

From Stdlib Require Import ZArith NArith QArith Lqa List String Ascii Lia.
From stdpp Require Import base gmap list strings pretty.

Set Warnings "-register-all".
Local Open Scope Z_scope.

(** ** Clock readings *)

#[global] Instance Qlt_decision (x y : Q) : Decision (x < y)%Q :=
  Z_lt_dec (Qnum x * QDen y) (Qnum y * QDen x).

#[global] Instance Qle_decision (x y : Q) : Decision (x <= y)%Q :=
  Z_le_dec (Qnum x * QDen y) (Qnum y * QDen x).

(** ** Python text *)

Abbreviation pystr := (list N).

Definition py (s : string) : pystr := map N_of_ascii (list_ascii_of_string s).

(** [str(n)] for a Python int. *)
Definition str_int (n : Z) : pystr := py (pretty n).

(** [Py_UNICODE_ISSPACE]: the code points [str.strip()] removes. *)
Definition isspace (c : N) : bool :=
  ((9 <=? c) && (c <=? 13) || (28 <=? c) && (c <=? 32)
   || (c =? 133) || (c =? 160) || (c =? 5760)
   || (8192 <=? c) && (c <=? 8202)
   || (c =? 8232) || (c =? 8233) || (c =? 8239) || (c =? 8287)
   || (c =? 12288))%N.

Fixpoint lstrip (s : pystr) : pystr :=
  match s with
  | c :: s' => if isspace c then lstrip s' else s
  | [] => []
  end.

Definition rstrip (s : pystr) : pystr := rev (lstrip (rev s)).

(** [s.strip()] *)
Definition strip (s : pystr) : pystr := rstrip (lstrip s).

(** The character class [[a-zA-Z0-9\-_.[\]]] of the install handler. *)
Definition allowed (c : N) : bool :=
  ((97 <=? c) && (c <=? 122) || (65 <=? c) && (c <=? 90)
   || (48 <=? c) && (c <=? 57)
   || (c =? 45) || (c =? 95) || (c =? 46) || (c =? 91) || (c =? 93))%N.

(** Longest prefix of class characters, and what follows it. *)
Fixpoint span_allowed (s : pystr) : pystr * pystr :=
  match s with
  | c :: s' =>
      if allowed c then let (run, rest) := span_allowed s' in (c :: run, rest)
      else ([], s)
  | [] => ([], [])
  end.

(** [re.match(r'^[a-zA-Z0-9\-_.[\]]+$', package)] as a truth value.  The
    class must match at least once from the start; [$] holds at the end of
    the string and also just before a newline that ends the string.  The
    newline is outside the class, so the greedy run is the only candidate. *)
Definition re_match_package (package : pystr) : bool :=
  let (run, rest) := span_allowed package in
  match run, rest with
  | [], _ => false
  | _ :: _, [] => true
  | _ :: _, [c] => (c =? 10)%N
  | _ :: _, _ => false
  end.

(** ** JSON request bodies *)

Inductive json :=
| JNull
| JBool (b : bool)
| JNum (n : Z)
| JStr (s : pystr)
| JArr (items : list json)
| JObj (fields : list (pystr * json)).

(** Python truth value, as tested by [if not code] and [if not package]. *)
Definition truthy (v : json) : bool :=
  match v with
  | JNull => false
  | JBool b => b
  | JNum n => negb (n =? 0)
  | JStr s => match s with [] => false | _ => true end
  | JArr l => match l with [] => false | _ => true end
  | JObj f => match f with [] => false | _ => true end
  end.

Definition type_name (v : json) : pystr :=
  match v with
  | JNull => py "NoneType"
  | JBool _ => py "bool"
  | JNum _ => py "int"
  | JStr _ => py "str"
  | JArr _ => py "list"
  | JObj _ => py "dict"
  end.

Fixpoint assoc (k : pystr) (fields : list (pystr * json)) : option json :=
  match fields with
  | (k', v) :: rest => if decide (k = k') then Some v else assoc k rest
  | [] => None
  end.

(** ** Requests and responses *)

Inductive http_method := POST | OPTIONS.

(** [request.get_json()] either yields the parsed body or raises; [NoJson]
    carries the text of the exception Flask raises. *)
Inductive req_body :=
| NoJson (err : pystr)
| Json (data : json).

Record request := Request {
  method : http_method;
  remote_addr : pystr;
  body : req_body }.

(** The payload of a response: the empty string of the pre-flight branch, or
    [jsonify] of the three-field result object. *)
Inductive payload :=
| Empty
| Result (success : bool) (output errors : pystr).

Record response := Response { content : payload; status : Z }.

(** [jsonify({...})] returned alone is served with status 200. *)
Definition jsonify (success : bool) (output errors : pystr) : response :=
  Response (Result success output errors) 200.

(** ** The world and the environment *)

(** The log of system calls: file creation, write, the call of
    [subprocess.run] with its argument vector and timeout, the kill of a
    child, and unlink. *)
Inductive event :=
| EvCreate (path : pystr)
| EvWrite (path content : pystr)
| EvRun (argv : list pystr) (timeout : Z)
| EvKill (pid : nat)
| EvUnlink (path : pystr).

(** The state the handlers act on: the module-level dictionary, the
    temporary files with their content, the live children, and the log. *)
Record world := World {
  rate_limit_cache : gmap pystr (list Q);
  files : gmap pystr pystr;
  children : gset nat;
  trace : list event }.

(** How [subprocess.run] ends.  [Completed]: the child exited and its
    output was read and decoded, so the call returns.  [Expired]: the child
    was still running at the deadline.  [SpawnError]: the child could not be
    started.  [CommError]: waiting for the child or reading from it raised.
    [Undecodable]: the child exited with [returncode] before the deadline,
    but its output is not valid text and decoding it raises.  [PipeHeld]: the
    child exited with [returncode] before the deadline, but a process it
    left behind keeps the pipes open, so the wait runs into the deadline. *)
Inductive child_outcome :=
| Completed (returncode : Z) (stdout stderr : pystr)
| Expired
| SpawnError (msg : pystr)
| CommError (msg : pystr)
| Undecodable (returncode : Z) (msg : pystr)
| PipeHeld (returncode : Z).

(** The exit status of the child when it ended by itself before the
    deadline. *)
Definition child_exit (o : child_outcome) : option Z :=
  match o with
  | Completed rc _ _ | Undecodable rc _ | PipeHeld rc => Some rc
  | Expired | SpawnError _ | CommError _ => None
  end.

(** [subprocess.run] raises [TimeoutExpired]. *)
Definition times_out (o : child_outcome) : bool :=
  match o with
  | Expired | PipeHeld _ => true
  | _ => false
  end.

(** What the host decides while one request is served: the reading of
    [time.time()], the path of the interpreter, the outcome of creating the
    temporary file (the text of the exception, or the new path), the text of
    the exception that writing a given content raises (if any), the process
    id and the fate of the child, the files the child creates or overwrites
    and the paths it removes while it runs, and the text of the exception
    that [os.unlink] raises on an existing path (if any: the child may have
    put a directory there, or made the directory unwritable). *)
Record env := Env {
  time_time : Q;
  sys_executable : pystr;
  mkstemp : pystr + pystr;
  write_fault : pystr -> option pystr;
  child_pid : nat;
  child : child_outcome;
  child_writes : gmap pystr pystr;
  child_removes : list pystr;
  unlink_fault : option pystr }.

(** ** Exceptions and the handler monad *)

(** Instances of [Exception]: [subprocess.TimeoutExpired], and every other
    one with its [str(e)]. *)
Inductive exn :=
| TimeoutExpired
| Error (msg : pystr).

Definition M (A : Type) : Type := world -> (exn + A) * world.

Definition ret {A} (a : A) : M A := fun w => (inr a, w).

Definition raise {A} (e : exn) : M A := fun w => (inl e, w).

Definition bind {A B} (m : M A) (k : A -> M B) : M B :=
  fun w =>
    match m w with
    | (inr a, w') => k a w'
    | (inl e, w') => (inl e, w')
    end.

Notation "'let!' x := m 'in' k" := (bind m (fun x => k))
  (at level 10, x name, m at level 200, k at level 200,
   format "'[v' 'let!'  x  :=  m  'in' '/' k ']'").

(** [try: body  except Exception as e: handler e] *)
Definition try_except {A} (body : M A) (handler : exn -> M A) : M A :=
  fun w =>
    match body w with
    | (inr a, w') => (inr a, w')
    | (inl e, w') => handler e w'
    end.

(** [try: body  finally: cleanup]; an exception of the cleanup replaces the
    outcome of the body. *)
Definition try_finally {A} (body : M A) (cleanup : M unit) : M A :=
  fun w =>
    match body w with
    | (r, w') =>
        match cleanup w' with
        | (inr _, w'') => (r, w'')
        | (inl e, w'') => (inl e, w'')
        end
    end.

Definition modify (f : world -> world) : M unit := fun w => (inr tt, f w).

Definition log (e : event) : M unit :=
  modify (fun w => World (rate_limit_cache w) (files w) (children w) (trace w ++ [e])).

Definition get_cache : M (gmap pystr (list Q)) :=
  fun w => (inr (rate_limit_cache w), w).

Definition set_cache (c : gmap pystr (list Q)) : M unit :=
  modify (fun w => World c (files w) (children w) (trace w)).

Definition set_files (f : gmap pystr pystr -> gmap pystr pystr) : M unit :=
  modify (fun w => World (rate_limit_cache w) (f (files w)) (children w) (trace w)).

Definition set_children (f : gset nat -> gset nat) : M unit :=
  modify (fun w => World (rate_limit_cache w) (files w) (f (children w)) (trace w)).

(** ** Library calls made by the handlers *)

Definition get_json (rq : request) : M json :=
  match body rq with
  | NoJson err => raise (Error err)
  | Json data => ret data
  end.

(** [data.get(key, dflt)]; only a dict has the method. *)
Definition dict_get (data : json) (key : pystr) (dflt : json) : M json :=
  match data with
  | JObj fields => ret (default dflt (assoc key fields))
  | v => raise (Error (py "'" ++ type_name v ++ py "' object has no attribute 'get'"))
  end.

(** [value.strip()]; only a str has the method. *)
Definition str_strip (v : json) : M pystr :=
  match v with
  | JStr s => ret (strip s)
  | v => raise (Error (py "'" ++ type_name v ++ py "' object has no attribute 'strip'"))
  end.

(** [tempfile.NamedTemporaryFile(mode='w', suffix='.py', delete=False)]:
    creates an empty file under a name chosen by the system, or raises. *)
Definition NamedTemporaryFile (ev : env) : M pystr :=
  match mkstemp ev with
  | inl msg => raise (Error msg)
  | inr name =>
      let! _ := set_files (insert name []) in
      let! _ := log (EvCreate name) in
      ret name
  end.

(** [f.write(code)] followed by the close at the end of the [with] block.
    Both can raise (a value that is not text, text the file encoding cannot
    represent, a full disk); because of [delete=False] the file stays. *)
Definition file_write (ev : env) (f : pystr) (data : json) : M unit :=
  match data with
  | JStr s =>
      match write_fault ev s with
      | Some msg => raise (Error msg)
      | None => let! _ := set_files (insert f s) in log (EvWrite f s)
      end
  | v => raise (Error (py "write() argument must be str, not " ++ type_name v))
  end.

Definition os_path_exists (path : pystr) : M bool :=
  fun w => (inr (bool_decide (is_Some (files w !! path))), w).

(** [os.unlink(path)]: raises when the path is missing, and when the host
    refuses to remove an existing path, which then stays. *)
Definition os_unlink (ev : env) (path : pystr) : M unit :=
  let! ex := os_path_exists path in
  if ex : bool then
    match unlink_fault ev with
    | Some msg => raise (Error msg)
    | None => let! _ := set_files (delete path) in log (EvUnlink path)
    end
  else raise (Error (py "[Errno 2] No such file or directory")).

Record CompletedProcess := {
  returncode : Z;
  stdout : pystr;
  stderr : pystr }.

(** The child is started ([popen]), and is gone once it has exited and been
    waited for ([reap]) or been killed ([kill_child]). *)
Definition popen (pid : nat) : M unit := set_children (union {[pid]}).

Definition reap (pid : nat) : M unit := set_children (fun s => s ∖ {[pid]}).

Definition kill_child (pid : nat) : M unit :=
  let! _ := log (EvKill pid) in reap pid.

(** What the child does to the files while it runs: it creates or
    overwrites the files of [child_writes], and the paths of [child_removes]
    are gone when it is done. *)
Definition child_touch (ev : env) (fs : gmap pystr pystr) : gmap pystr pystr :=
  foldr delete (child_writes ev ∪ fs) (child_removes ev).

(** A child that was started runs, with its effect on the files. *)
Definition child_runs (ev : env) : M unit :=
  let! _ := popen (child_pid ev) in
  set_files (child_touch ev).

(** [subprocess.run(argv, capture_output=True, text=True, timeout=...)].
    The library starts the child, waits for it with the deadline, and on
    [TimeoutExpired] (or any other exception while waiting or decoding)
    kills the child and waits for it before re-raising. *)
Definition subprocess_run (ev : env) (argv : list pystr) (timeout : Z)
  : M CompletedProcess :=
  let pid := child_pid ev in
  let! _ := log (EvRun argv timeout) in
  match child ev with
  | SpawnError msg => raise (Error msg)
  | Completed rc out err =>
      let! _ := child_runs ev in
      let! _ := reap pid in
      ret {| returncode := rc; stdout := out; stderr := err |}
  | Expired | PipeHeld _ =>
      let! _ := child_runs ev in
      let! _ := kill_child pid in
      raise TimeoutExpired
  | CommError msg | Undecodable _ msg =>
      let! _ := child_runs ev in
      let! _ := kill_child pid in
      raise (Error msg)
  end.

(** ** The rate-limit decorator (backend.py, lines 30-64) *)

Definition rate_limit_message (max_requests window : Z) : pystr :=
  py "Rate limit exceeded. Maximum " ++ str_int max_requests
  ++ py " requests per " ++ str_int window ++ py " seconds.".

Definition rate_limit (max_requests window : Z)
    (f : env -> request -> M response) (ev : env) (rq : request) : M response :=
  let client_ip := remote_addr rq in
  let current_time := time_time ev in
  let! cache := get_cache in
  let! _ := (if decide (cache !! client_ip = None)
             then set_cache (<[client_ip := []]> cache) else ret tt) in
  let! cache := get_cache in
  let! _ := set_cache (<[client_ip :=
      filter (fun t => (current_time - t < inject_Z window)%Q)
        (cache !!! client_ip)]> cache) in
  let! cache := get_cache in
  if Z.of_nat (length (cache !!! client_ip)) >=? max_requests
  then ret (Response
              (Result false [] (rate_limit_message max_requests window)) 429)
  else
    let! _ := set_cache (<[client_ip := cache !!! client_ip ++ [current_time]]> cache) in
    f ev rq.

(** ** /api/run (backend.py, lines 70-140) *)

Definition run_code_try (ev : env) (rq : request) : M response :=
  let! data := get_json rq in
  let! code := dict_get data (py "code") (JStr []) in
  if negb (truthy code)
  then ret (jsonify false [] (py "No code provided"))
  else
    let! temp_file := (let! f := NamedTemporaryFile ev in
                       let! _ := file_write ev f code in
                       ret f) in
    try_finally
      (let! result := subprocess_run ev [sys_executable ev; temp_file] 30 in
       ret (jsonify (returncode result =? 0) (stdout result) (stderr result)))
      (let! ex := os_path_exists temp_file in
       if ex : bool then os_unlink ev temp_file else ret tt).

Definition run_timeout_message : pystr :=
  py "Execution timeout: Code took longer than 30 seconds to execute".

Definition server_error (msg : pystr) : response :=
  jsonify false [] (py "Server error: " ++ msg).

Definition run_code (ev : env) (rq : request) : M response :=
  match method rq with
  | OPTIONS => ret (Response Empty 204)
  | POST =>
      try_except (run_code_try ev rq)
        (fun e =>
           match e with
           | TimeoutExpired => ret (jsonify false [] run_timeout_message)
           | Error msg => ret (server_error msg)
           end)
  end.

(** ** /api/install (backend.py, lines 142-210) *)

Definition invalid_package_message : pystr :=
  py "Invalid package name. Only alphanumeric characters, hyphens, underscores, dots, and brackets are allowed.".

Definition install_timeout_message : pystr :=
  py "Installation timeout: Package installation took longer than 120 seconds".

Definition pip_argv (ev : env) (package : pystr) : list pystr :=
  [sys_executable ev; py "-m"; py "pip"; py "install"; package].

Definition install_package_try (ev : env) (rq : request) : M response :=
  let! data := get_json rq in
  let! raw := dict_get data (py "package") (JStr []) in
  let! package := str_strip raw in
  match package with
  | [] => ret (jsonify false [] (py "No package name provided"))
  | _ :: _ =>
      if negb (re_match_package package)
      then ret (jsonify false [] invalid_package_message)
      else
        let! result := subprocess_run ev (pip_argv ev package) 120 in
        ret (jsonify (returncode result =? 0) (stdout result) (stderr result))
  end.

Definition install_package (ev : env) (rq : request) : M response :=
  match method rq with
  | OPTIONS => ret (Response Empty 204)
  | POST =>
      try_except (install_package_try ev rq)
        (fun e =>
           match e with
           | TimeoutExpired => ret (jsonify false [] install_timeout_message)
           | Error msg => ret (server_error msg)
           end)
  end.

(** ** The two routes, as decorated in the source *)

Definition api_run : env -> request -> M response := rate_limit 20 60 run_code.

Definition api_install : env -> request -> M response :=
  rate_limit 10 300 install_package.

Inductive endpoint := ApiRun | ApiInstall.

Definition dispatch (ep : endpoint) : env -> request -> M response :=
  match ep with
  | ApiRun => api_run
  | ApiInstall => api_install
  end.


(** ** Sessions: a sequence of requests served one after the other *)

Record call := Call {
  target : endpoint;
  call_env : env;
  call_req : request }.

Fixpoint serve (calls : list call) (w : world) : list (exn + response) * world :=
  match calls with
  | [] => ([], w)
  | c :: rest =>
      let (r, w') := dispatch (target c) (call_env c) (call_req c) w in
      let (rs, w'') := serve rest w' in
      (r :: rs, w'')
  end.

#[global] Instance endpoint_eq_dec : EqDecision endpoint.
Proof. solve_decision. Defined.

(** A call was turned away by the limiter when it was answered with 429. *)
Definition rejected (r : exn + response) : bool :=
  match r with
  | inr resp => status resp =? 429
  | inl _ => false
  end.

(** Timestamps of the calls of client [ip] to endpoint [ep] that the limiter
    let through. *)
Fixpoint accepted_times (ep : endpoint) (ip : pystr)
    (calls : list call) (rs : list (exn + response)) : list Q :=
  match calls, rs with
  | c :: calls', r :: rs' =>
      (if bool_decide (target c = ep /\ remote_addr (call_req c) = ip)
          && negb (rejected r)
       then [time_time (call_env c)] else [])
      ++ accepted_times ep ip calls' rs'
  | _, _ => []
  end.

(** How many of the timestamps fall in the window [[a, a + window)]. *)
Definition in_window (a : Q) (window : Z) (ts : list Q) : nat :=
  length (filter (fun t => (a <= t)%Q /\ (t < a + inject_Z window)%Q) ts).

(** The clock does not run backwards over a session. *)
Fixpoint clock_monotone (last : Q) (calls : list call) : Prop :=
  match calls with
  | [] => True
  | c :: rest =>
      (last <= time_time (call_env c))%Q
      /\ clock_monotone (time_time (call_env c)) rest
  end.

Definition policy_of (ep : endpoint) : Z * Z :=
  match ep with
  | ApiRun => (20, 60)
  | ApiInstall => (10, 300)
  end.

(** ** Auxiliary notions used in the statements *)

Definition with_cache (c : gmap pystr (list Q)) (w : world) : world :=
  World c (files w) (children w) (trace w).

(** The timestamps of [l] that a pruning at time [now] keeps. *)
Definition recent (window : Z) (now : Q) (l : list Q) : list Q :=
  filter (fun t => (now - t < inject_Z window)%Q) l.

(** The timestamps of [ip] that survive the pruning step at time [now]. *)
Definition kept (window : Z) (now : Q) (c : gmap pystr (list Q)) (ip : pystr)
  : list Q :=
  recent window now (c !!! ip).

(** A computation leaves a component of the world as it found it. *)
Definition preserves {A B} (proj : world -> B) (m : M A) : Prop :=
  forall w, proj (snd (m w)) = proj w.

(** ** Observations on a run of a handler *)

Definition is_run (e : event) : bool :=
  match e with EvRun _ _ => true | _ => false end.

(** The system calls logged between two states of the world. *)
Definition new_events (w w' : world) : list event :=
  drop (length (trace w)) (trace w').

(** The computation, started in [w], called [subprocess.run]. *)
Definition ran_child {A} (m : M A) (w : world) : bool :=
  existsb is_run (new_events w (snd (m w))).

Definition statuses (rs : list (exn + response)) : list Z :=
  map (fun r => match r with inr resp => status resp | inl _ => 500 end) rs.

(** ** Concrete clients, requests and environments *)

Definition client : pystr := py "203.0.113.7".
Definition python3 : pystr := py "/usr/bin/python3".
Definition tmp_unit : pystr := py "/tmp/tmpk3v9x2ab.py".

(** An environment in which nothing fails on the server side. *)
Definition quiet_env (now : Q) (outcome : child_outcome) : env :=
  Env now python3 (inr tmp_unit) (fun _ => None) 4242 outcome ∅ [] None.

(** The world when the module has just been loaded: [rate_limit_cache = {}]. *)
Definition boot : world := World ∅ ∅ ∅ [].

Definition post_json (fields : list (pystr * json)) : request :=
  Request POST client (Json (JObj fields)).

Definition preflight : request :=
  Request OPTIONS client (NoJson (py "415 Unsupported Media Type")).

Definition hello_world : pystr := py "print('Hello, World!')".

Definition forged_timeout : pystr :=
  py "import sys; sys.stderr.write('Execution timeout: Code took longer than 30 seconds to execute'); sys.exit(1)".

Definition run_request (code : pystr) : request :=
  post_json [(py "code", JStr code)].

Definition install_request (package : pystr) : request :=
  post_json [(py "package", JStr package)].

Definition is_surrogate (c : N) : bool := ((55296 <=? c) && (c <=? 57343))%N.

(** A host whose temporary files are UTF-8 text: writing [s] raises
    [UnicodeEncodeError] when [s] holds a lone surrogate.  The message is the
    one Python gives for the one-character text U+D800. *)
Definition utf8_env (now : Q) (outcome : child_outcome) : env :=
  Env now python3 (inr tmp_unit)
    (fun s => if existsb is_surrogate s
              then Some (py "'utf-8' codec can't encode character '\ud800' in position 0: surrogates not allowed")
              else None)
    4242 outcome ∅ [] None.

Definition ok : child_outcome := Completed 0 [] [].

(** Ten installs at time 0, one run at time 61, nine installs at time 62. *)
Definition mixed_session : list call :=
  repeat (Call ApiInstall (quiet_env 0 ok) (install_request (py "numpy"))) 10
  ++ [Call ApiRun (quiet_env 61 ok) (run_request hello_world)]
  ++ repeat (Call ApiInstall (quiet_env 62 ok) (install_request (py "numpy"))) 9.

(** A host on which the child has put a directory in the place of its
    script: the path is still there and [os.unlink] refuses it. *)
Definition stubborn_env (now : Q) (outcome : child_outcome) : env :=
  Env now python3 (inr tmp_unit) (fun _ => None) 4242 outcome ∅ []
    (Some (py "[Errno 21] Is a directory: '/tmp/tmpk3v9x2ab.py'")).

Definition decode_error : pystr :=
  py "'utf-8' codec can't decode byte 0xff in position 0: invalid start byte".


(** ** Further observations on sessions and runs *)

(** The answers given to the calls of client [ip], in order. *)
Fixpoint responses_to (ip : pystr) (calls : list call)
    (rs : list (exn + response)) : list (exn + response) :=
  match calls, rs with
  | c :: calls', r :: rs' =>
      if decide (remote_addr (call_req c) = ip)
      then r :: responses_to ip calls' rs'
      else responses_to ip calls' rs'
  | _, _ => []
  end.

(** The calls of a session that come from client [ip]. *)
Definition calls_of (ip : pystr) (calls : list call) : list call :=
  filter (fun c => remote_addr (call_req c) = ip) calls.

(** The addresses a session's calls come from. *)
Definition callers (calls : list call) : gset pystr :=
  list_to_set (map (fun c => remote_addr (call_req c)) calls).

(** How often [subprocess.run] was called between two states of the world. *)
Definition runs_between (w w' : world) : nat :=
  length (List.filter is_run (new_events w w')).

(** A JSON value that is a text. *)
Definition is_text (v : json) : bool :=
  match v with JStr _ => true | _ => false end.

(** A request body that is a JSON object. *)
Definition is_object_body (b : req_body) : bool :=
  match b with Json (JObj _) => true | _ => false end.

(** Twenty-one run requests at time 0; the last one is over budget. *)
Definition burst_session : list call :=
  repeat (Call ApiRun (quiet_env 0 ok) (run_request hello_world)) 21.

(** Twelve install requests and nothing else, one every ten seconds. *)
Definition install_session : list call :=
  map (fun k => Call ApiInstall (quiet_env (inject_Z (10 * Z.of_nat k)) ok)
                  (install_request (py "numpy")))
      (seq 0 12).

(** Two clients taking turns at the run route. *)
Definition other_client : pystr := py "198.51.100.23".

Definition two_clients_session : list call :=
  [Call ApiRun (quiet_env 0 ok) (run_request hello_world);
   Call ApiRun (quiet_env 1 ok)
     (Request POST other_client (Json (JObj [(py "code", JStr hello_world)])));
   Call ApiInstall (quiet_env 2 ok) (install_request (py "numpy"));
   Call ApiInstall (quiet_env 3 ok)
     (Request POST other_client (Json (JObj [(py "package", JStr (py "flask"))])))].

(** ** Lemmas on the monad *)

Section Preserves.
Context {B : Type} (proj : world -> B).

Lemma preserves_ret {A} (a : A) : preserves proj (ret a).
Proof. intros w. reflexivity. Qed.

Lemma preserves_raise {A} (e : exn) : preserves proj (raise (A:=A) e).
Proof. intros w. reflexivity. Qed.

Lemma preserves_bind {A C} (m : M A) (k : A -> M C) :
  preserves proj m -> (forall a, preserves proj (k a)) ->
  preserves proj (bind m k).
Proof.
  intros Hm Hk w. unfold bind. specialize (Hm w).
  destruct (m w) as [[e|a] w1]; simpl in *; [assumption|].
  rewrite Hk. assumption.
Qed.

Lemma preserves_try_except {A} (m : M A) (h : exn -> M A) :
  preserves proj m -> (forall e, preserves proj (h e)) ->
  preserves proj (try_except m h).
Proof.
  intros Hm Hh w. unfold try_except. specialize (Hm w).
  destruct (m w) as [[e|a] w1]; simpl in *; [|assumption].
  rewrite Hh. assumption.
Qed.

Lemma preserves_try_finally {A} (m : M A) (c : M unit) :
  preserves proj m -> preserves proj c -> preserves proj (try_finally m c).
Proof.
  intros Hm Hc w. unfold try_finally. specialize (Hm w).
  destruct (m w) as [r w1]. specialize (Hc w1).
  destruct (c w1) as [[e|[]] w2]; simpl in *; congruence.
Qed.

Lemma preserves_modify (f : world -> world) :
  (forall w, proj (f w) = proj w) -> preserves proj (modify f).
Proof. intros H w. apply H. Qed.
End Preserves.

Create HintDb frame discriminated.

(** Walks through a computation built from the monad operations and closes
    the obligations on its primitive calls with the hints of [frame]. *)
Ltac frame :=
  repeat first
    [ apply preserves_ret
    | apply preserves_raise
    | apply preserves_modify; intros ?; reflexivity
    | solve [auto with frame]
    | apply preserves_bind; [|intros ?; cbv beta]
    | apply preserves_try_except; [|intros ?; cbv beta]
    | apply preserves_try_finally
    | match goal with
      | |- preserves _ (match ?x with _ => _ end) => destruct x
      end ].

Ltac frame_prim := intros w; reflexivity.

Lemma log_frame_cache e : preserves rate_limit_cache (log e).
Proof. frame_prim. Qed.

Lemma set_files_cache f : preserves rate_limit_cache (set_files f).
Proof. frame_prim. Qed.

Lemma set_children_cache f : preserves rate_limit_cache (set_children f).
Proof. frame_prim. Qed.

Lemma os_path_exists_frame {B} (proj : world -> B) p :
  preserves proj (os_path_exists p).
Proof. frame_prim. Qed.

#[global] Hint Resolve log_frame_cache set_files_cache set_children_cache
  os_path_exists_frame : frame.

Lemma get_json_frame {B} (proj : world -> B) rq : preserves proj (get_json rq).
Proof. unfold get_json. frame. Qed.

Lemma dict_get_frame {B} (proj : world -> B) d k v : preserves proj (dict_get d k v).
Proof. unfold dict_get. frame. Qed.

Lemma str_strip_frame {B} (proj : world -> B) v : preserves proj (str_strip v).
Proof. unfold str_strip. frame. Qed.

#[global] Hint Resolve get_json_frame dict_get_frame str_strip_frame : frame.

Lemma NamedTemporaryFile_cache ev : preserves rate_limit_cache (NamedTemporaryFile ev).
Proof. unfold NamedTemporaryFile. frame. Qed.

Lemma file_write_cache ev f d : preserves rate_limit_cache (file_write ev f d).
Proof. unfold file_write. frame. Qed.

Lemma os_unlink_cache ev p : preserves rate_limit_cache (os_unlink ev p).
Proof. unfold os_unlink. frame. Qed.

Lemma subprocess_run_cache ev argv t :
  preserves rate_limit_cache (subprocess_run ev argv t).
Proof. unfold subprocess_run, child_runs, popen, reap, kill_child. frame. Qed.

#[global] Hint Resolve NamedTemporaryFile_cache file_write_cache os_unlink_cache
  subprocess_run_cache : frame.

Lemma run_code_cache ev rq : preserves rate_limit_cache (run_code ev rq).
Proof. unfold run_code, run_code_try. frame. Qed.

Lemma install_package_cache ev rq : preserves rate_limit_cache (install_package ev rq).
Proof. unfold install_package, install_package_try. frame. Qed.

(** ** The limiter as a function of the cache *)

(** One call of the decorated function: prune, compare, then either answer
    429 or record the time and run the handler. *)
Lemma rate_limit_unfold max_requests window f ev rq w :
  rate_limit max_requests window f ev rq w =
    let ip := remote_addr rq in
    let l := kept window (time_time ev) (rate_limit_cache w) ip in
    if Z.of_nat (length l) >=? max_requests
    then (inr (Response (Result false [] (rate_limit_message max_requests window)) 429),
          with_cache (<[ip := l]> (rate_limit_cache w)) w)
    else f ev rq (with_cache (<[ip := l ++ [time_time ev]]> (rate_limit_cache w)) w).
Proof.
  unfold rate_limit, kept, bind, get_cache, set_cache, modify, ret, with_cache.
  cbn -[Z.geb Z.of_nat filter].
  destruct (decide (rate_limit_cache w !! remote_addr rq = None)) as [Hnone|Hsome];
    cbn -[Z.geb Z.of_nat filter].
  - rewrite !lookup_total_insert_eq, !insert_insert_eq.
    rewrite (lookup_total_alt (rate_limit_cache w)), Hnone. cbn -[Z.geb Z.of_nat].
    destruct (Z.of_nat _ >=? max_requests); cbn;
      rewrite ?lookup_total_insert_eq, ?insert_insert_eq; reflexivity.
  - rewrite !lookup_total_insert_eq.
    destruct (Z.of_nat _ >=? max_requests); cbn;
      rewrite ?lookup_total_insert_eq, ?insert_insert_eq; reflexivity.
Qed.

(** ** Running the handlers by cases *)

Arguments py : simpl never.
Arguments strip : simpl never.
Arguments re_match_package : simpl never.
Arguments truthy : simpl never.

(** Unfolds the monad and the library calls, and splits on every test the
    handler makes, so that each goal is one path through the source. *)
Ltac run_paths :=
  unfold run_code, run_code_try, install_package, install_package_try,
    get_json, dict_get, str_strip, NamedTemporaryFile, file_write, os_unlink,
    os_path_exists, subprocess_run, child_runs, kill_child, popen, reap, log,
    set_files, set_children, set_cache, get_cache,
    try_except, try_finally, bind, ret, raise, modify in *;
  repeat (cbn [fst snd negb rate_limit_cache files children trace
               returncode stdout stderr content status] in *;
          match goal with
          | |- context [match ?x with _ => _ end] =>
              lazymatch x with
              | context [match _ with _ => _ end] => fail
              | _ => destruct x eqn:?
              end
          end);
  cbn [fst snd negb rate_limit_cache files children trace
       returncode stdout stderr content status] in *.

Lemma run_code_returns ev rq w :
  exists r w', run_code ev rq w = (inr r, w') /\
    (r = Response Empty 204 \/ exists b o e, r = jsonify b o e).
Proof.
  run_paths; eauto 10.
Qed.

(** ** Empty or missing code (C9) *)

Lemma validation_not_server_error msg :
  jsonify false [] (py "No code provided") <> server_error msg.
Proof. unfold server_error, jsonify. intros H. inversion H. Qed.

(** C9. A run request whose [code] field is missing or the empty string is
    answered with [success = false] and the message "No code provided", which
    is not a server error; the world is left exactly as it was, so no
    temporary file is created and no subprocess is started.  Through the
    route the only other answer is the limiter's 429, and there too neither
    the files nor the log of system calls change. *)
Theorem run_code_rejects_empty_code ev ip fields w :
  assoc (py "code") fields = None \/ assoc (py "code") fields = Some (JStr []) ->
  let rq := Request POST ip (Json (JObj fields)) in
  run_code ev rq w = (inr (jsonify false [] (py "No code provided")), w)
  /\ (forall msg, jsonify false [] (py "No code provided") <> server_error msg)
  /\ files (snd (api_run ev rq w)) = files w
  /\ trace (snd (api_run ev rq w)) = trace w.
Proof.
  intros Hcode rq.
  assert (Hrun : forall w1, run_code ev rq w1
                   = (inr (jsonify false [] (py "No code provided")), w1)).
  { intros w1. unfold run_code, run_code_try, get_json, dict_get, try_except, bind, ret.
    cbn. destruct Hcode as [-> | ->]; reflexivity. }
  split; [apply Hrun|]. split; [apply validation_not_server_error|].
  unfold api_run. rewrite rate_limit_unfold. cbn zeta.
  destruct (Z.of_nat _ >=? 20); [split; reflexivity|].
  rewrite Hrun. split; reflexivity.
Qed.

Lemma run_code_rejects_empty_code_witness :
  run_code (quiet_env 0 Expired) (post_json []) boot
    = (inr (jsonify false [] (py "No code provided")), boot)
  /\ run_code (quiet_env 0 Expired) (post_json [(py "code", JStr [])]) boot
    = (inr (jsonify false [] (py "No code provided")), boot).
Proof.
  split.
  - apply (run_code_rejects_empty_code (quiet_env 0 Expired) client [] boot).
    left. reflexivity.
  - apply (run_code_rejects_empty_code (quiet_env 0 Expired) client
             [(py "code", JStr [])] boot).
    right. reflexivity.
Defined.

(** ** Pre-flight requests (C8) *)

(** Twenty pre-flight requests use up the run budget of the client; the next
    one, a second later, is answered 429 with the limiter's JSON body instead
    of the empty 204. *)
Lemma preflight_rejected_over_budget :
  statuses (fst (serve (repeat (Call ApiRun (quiet_env 0 Expired) preflight) 20
                        ++ [Call ApiRun (quiet_env 1 Expired) preflight]) boot))
    = repeat 204 20 ++ [429]
  /\ last (fst (serve (repeat (Call ApiRun (quiet_env 0 Expired) preflight) 20
                        ++ [Call ApiRun (quiet_env 1 Expired) preflight]) boot))
     = Some (inr (Response
                    (Result false []
                       (py "Rate limit exceeded. Maximum 20 requests per 60 seconds."))
                    429)).
Proof. split; vm_compute; reflexivity. Qed.

(** C8, amended. The handlers answer a pre-flight request with the empty
    body and status 204 and leave the world untouched, whatever the body of
    the request.  The route passes the request through the limiter first:
    when the client has budget left the answer is that 204 and the only
    change is the timestamp recorded for the client. *)
Theorem preflight_empty_204 ev rq w :
  method rq = OPTIONS ->
  run_code ev rq w = (inr (Response Empty 204), w)
  /\ install_package ev rq w = (inr (Response Empty 204), w)
  /\ (forall ep,
        let l := kept (snd (policy_of ep)) (time_time ev)
                   (rate_limit_cache w) (remote_addr rq) in
        Z.of_nat (length l) < fst (policy_of ep) ->
        dispatch ep ev rq w
          = (inr (Response Empty 204),
             with_cache (<[remote_addr rq := l ++ [time_time ev]]>
                           (rate_limit_cache w)) w)).
Proof.
  intros Hm.
  assert (Hrun : forall w1, run_code ev rq w1 = (inr (Response Empty 204), w1))
    by (intros w1; unfold run_code; rewrite Hm; reflexivity).
  assert (Hins : forall w1, install_package ev rq w1 = (inr (Response Empty 204), w1))
    by (intros w1; unfold install_package; rewrite Hm; reflexivity).
  split; [apply Hrun|]. split; [apply Hins|].
  intros [] l Hlt; cbn [policy_of fst snd] in *; unfold dispatch, api_run, api_install;
    rewrite rate_limit_unfold; cbn zeta; fold l;
    (destruct (Z.of_nat (length l) >=? _) eqn:Hge; [lia|]); auto.
Qed.

Lemma preflight_empty_204_witness :
  run_code (quiet_env 0 Expired) preflight boot = (inr (Response Empty 204), boot)
  /\ api_install (quiet_env 5 Expired) preflight boot
     = (inr (Response Empty 204), with_cache {[client := [5%Q]]} boot).
Proof.
  destruct (preflight_empty_204 (quiet_env 5 Expired) preflight boot eq_refl)
    as (_ & _ & Hroute).
  split.
  - apply (preflight_empty_204 (quiet_env 0 Expired) preflight boot eq_refl).
  - etransitivity; [apply (Hroute ApiInstall); vm_compute; reflexivity|].
    vm_compute; reflexivity.
Defined.

(** ** The handlers as error boundary (C7) *)

(** C7. Neither handler lets an exception out: each returns a response, which
    is the empty 204 for a pre-flight request and otherwise a result object
    with its three fields.  Whenever the guarded block of a handler ends with
    an exception other than the timeout, the handler answers with
    [success = false], an empty output and "Server error: " followed by the
    text of the exception. *)
Theorem handlers_fold_faults ev rq w :
  (exists r w', run_code ev rq w = (inr r, w') /\
     match method rq with
     | OPTIONS => r = Response Empty 204
     | POST => exists b o e, r = Response (Result b o e) 200
     end)
  /\ (exists r w', install_package ev rq w = (inr r, w') /\
     match method rq with
     | OPTIONS => r = Response Empty 204
     | POST => exists b o e, r = Response (Result b o e) 200
     end)
  /\ (forall msg w', method rq = POST ->
        run_code_try ev rq w = (inl (Error msg), w') ->
        run_code ev rq w
          = (inr (Response (Result false [] (py "Server error: " ++ msg)) 200), w'))
  /\ (forall msg w', method rq = POST ->
        install_package_try ev rq w = (inl (Error msg), w') ->
        install_package ev rq w
          = (inr (Response (Result false [] (py "Server error: " ++ msg)) 200), w')).
Proof.
  repeat split.
  - unfold jsonify. run_paths; eauto 10.
  - unfold jsonify. run_paths; eauto 10.
  - intros msg w' Hm Htry. unfold run_code, try_except. rewrite Hm, Htry. reflexivity.
  - intros msg w' Hm Htry. unfold install_package, try_except. rewrite Hm, Htry. reflexivity.
Qed.

Lemma handlers_fold_faults_witness :
  run_code (quiet_env 0 Expired)
      (Request POST client (NoJson (py "415 Unsupported Media Type"))) boot
    = (inr (Response
              (Result false [] (py "Server error: 415 Unsupported Media Type")) 200),
       boot)
  /\ install_package (quiet_env 0 (SpawnError (py "[Errno 12] Cannot allocate memory")))
       (post_json [(py "package", JStr (py "numpy"))]) boot
     = (inr (Response
               (Result false [] (py "Server error: [Errno 12] Cannot allocate memory"))
               200),
        World ∅ ∅ ∅ [EvRun (pip_argv (quiet_env 0 Expired) (py "numpy")) 120]).
Proof.
  split.
  - destruct (handlers_fold_faults (quiet_env 0 Expired)
                (Request POST client (NoJson (py "415 Unsupported Media Type"))) boot)
      as (_ & _ & Hrun & _).
    apply (Hrun _ boot eq_refl). reflexivity.
  - destruct (handlers_fold_faults
                (quiet_env 0 (SpawnError (py "[Errno 12] Cannot allocate memory")))
                (post_json [(py "package", JStr (py "numpy"))]) boot)
      as (_ & _ & _ & Hins).
    apply (Hins _ _ eq_refl). vm_compute. reflexivity.
Defined.

(** ** What the child's end does to the answer (C5, C6) *)

(** Brings the log of a finished path into the shape [trace w ++ events]
    and reads off which calls were made. *)
Ltac trace_norm :=
  unfold ran_child, new_events in *;
  run_paths;
  unfold server_error, jsonify in *;
  repeat match goal with
         | H : context [drop (length ?t) ?t] |- _ => rewrite drop_all in H
         | H : context [drop (length _) (_ ++ _)] |- _ =>
             rewrite <- ?app_assoc in H; rewrite drop_app_length in H
         | |- context [drop (length ?t) ?t] => rewrite drop_all
         | |- context [drop (length _) (_ ++ _)] =>
             rewrite <- ?app_assoc; rewrite drop_app_length
         end;
  cbn [existsb is_run orb app] in *;
  try discriminate.

Lemma foldr_delete_lookup (l : list pystr) (m : gmap pystr pystr) (k : pystr) :
  foldr delete m l !! k = if decide (k ∈ l) then None else m !! k.
Proof.
  induction l as [|x l IH]; cbn.
  - destruct (decide (k ∈ [])) as [Hin|_]; [inversion Hin|reflexivity].
  - destruct (decide (x = k)) as [->|Hne].
    + rewrite lookup_delete_eq.
      rewrite decide_True by (apply elem_of_cons; left; reflexivity).
      reflexivity.
    + rewrite lookup_delete_ne by exact Hne. rewrite IH.
      destruct (decide (k ∈ l)) as [Hin|Hn].
      * rewrite decide_True by (apply elem_of_cons; right; exact Hin).
        reflexivity.
      * rewrite decide_False; [reflexivity|].
        intros [->|Hin]%elem_of_cons; [congruence|auto].
Qed.

(** After the child has run, its script is there unless the child removed
    it. *)
Lemma script_after_child ev name s fs :
  bool_decide (is_Some (child_touch ev (<[name := s]> fs) !! name))
    = bool_decide (name ∉ child_removes ev).
Proof.
  unfold child_touch. rewrite foldr_delete_lookup.
  destruct (decide (name ∈ child_removes ev)) as [Hin|Hn].
  - rewrite bool_decide_eq_false_2 by (intros [x Hx]; discriminate Hx).
    rewrite bool_decide_eq_false_2 by auto. reflexivity.
  - rewrite !bool_decide_eq_true_2; [reflexivity|exact Hn|].
    apply lookup_union_is_Some. right. rewrite lookup_insert_eq. eauto.
Qed.

Lemma script_kept ev name s fs :
  name ∉ child_removes ev -> is_Some (child_touch ev (<[name := s]> fs) !! name).
Proof.
  intros Hn. unfold child_touch. rewrite foldr_delete_lookup.
  rewrite decide_False by exact Hn.
  apply lookup_union_is_Some. right. rewrite lookup_insert_eq. eauto.
Qed.

Lemma child_touch_idle ev fs :
  child_writes ev = ∅ -> child_removes ev = [] -> child_touch ev fs = fs.
Proof.
  intros Hw Hr. unfold child_touch. rewrite Hw, Hr. cbn. apply (left_id_L ∅ (∪)).
Qed.

Lemma gone_after_child ev name s fs :
  bool_decide (is_Some (child_touch ev (<[name := s]> fs) !! name)) = false ->
  child_touch ev (<[name := s]> fs) !! name = None.
Proof.
  intros H. apply bool_decide_eq_false in H.
  apply eq_None_not_Some. exact H.
Qed.


(** When [subprocess.run] returns and the cleanup does not raise, the run
    handler answers with the exit status and the streams of the child. *)
Lemma run_code_completed ev rq w rc out err :
  child ev = Completed rc out err ->
  unlink_fault ev = None ->
  ran_child (run_code ev rq) w = true ->
  fst (run_code ev rq w) = inr (Response (Result (rc =? 0) out err) 200).
Proof.
  intros Hchild Hunlink Hran. trace_norm; congruence.
Qed.

Lemma install_package_completed ev rq w rc out err :
  child ev = Completed rc out err ->
  ran_child (install_package ev rq) w = true ->
  fst (install_package ev rq w) = inr (Response (Result (rc =? 0) out err) 200).
Proof.
  intros Hchild Hran. trace_norm; congruence.
Qed.

(** When the unlink in the [finally] block raises, its exception replaces
    whatever the guarded call produced: the answer is the server error of the
    unlink and the file stays, however the child ended. *)
Lemma run_code_cleanup_raises ev rq w name msg :
  ran_child (run_code ev rq) w = true ->
  mkstemp ev = inr name ->
  name ∉ child_removes ev ->
  unlink_fault ev = Some msg ->
  fst (run_code ev rq w) = inr (server_error msg)
  /\ is_Some (files (snd (run_code ev rq w)) !! name).
Proof.
  intros Hran Hname Hkept Hfault.
  trace_norm.
  all: repeat match goal with
         | H : inr _ = inr _ |- _ => injection H as <-
         | H : bool_decide (is_Some (child_touch _ (<[_:=_]> _) !! _)) = _ |- _ =>
             rewrite script_after_child in H
         | H : bool_decide (_ ∉ _) = false |- _ =>
             apply bool_decide_eq_false in H; contradiction
         | H : bool_decide (is_Some (<[_:=_]> _ !! _)) = false |- _ =>
             exfalso; rewrite lookup_insert_eq in H; cbn in H; congruence
         end.
  all: try congruence.
  all: (split; [congruence|]).
  all: first [ rewrite lookup_insert_eq; eauto
             | apply script_kept; assumption ].
Qed.

Lemma started_then_gone (pid : nat) (s : gset nat) :
  pid ∉ ({[pid]} ∪ s) ∖ {[pid]}.
Proof.
  intros [_ Hn]%elem_of_difference. apply Hn. apply elem_of_singleton. reflexivity.
Qed.

(** After a wait that ran into the deadline, and a cleanup that does not
    raise, the guarded block of the run handler ends with [TimeoutExpired],
    the handler answers with the timeout message, the child has been killed
    and is no longer among the live children, and the temporary file is
    gone. *)
Lemma run_code_expired ev rq w :
  times_out (child ev) = true ->
  unlink_fault ev = None ->
  ran_child (run_code ev rq) w = true ->
  fst (run_code_try ev rq w) = inl TimeoutExpired
  /\ fst (run_code ev rq w) = inr (Response (Result false [] run_timeout_message) 200)
  /\ (child_pid ev ∉ children (snd (run_code ev rq w)))
  /\ In (EvKill (child_pid ev)) (new_events w (snd (run_code ev rq w)))
  /\ (exists argv, In (EvRun argv 30) (new_events w (snd (run_code ev rq w))))
  /\ (forall name, mkstemp ev = inr name ->
        files (snd (run_code ev rq w)) !! name = None).
Proof.
  intros Hchild Hunlink Hran. trace_norm.
  all: try (rewrite Hunlink in *; discriminate).
  all: try (cbn [times_out] in Hchild; discriminate Hchild).
  all: repeat split.
  all: try apply started_then_gone.
  all: try (cbn; tauto).
  all: try (eexists; cbn; eauto 10; fail).
  all: intros name [= <-];
    first [apply lookup_delete_eq | apply gone_after_child; assumption].
Qed.

Lemma install_package_expired ev rq w :
  times_out (child ev) = true ->
  ran_child (install_package ev rq) w = true ->
  fst (install_package_try ev rq w) = inl TimeoutExpired
  /\ fst (install_package ev rq w)
     = inr (Response (Result false [] install_timeout_message) 200)
  /\ (child_pid ev ∉ children (snd (install_package ev rq w)))
  /\ In (EvKill (child_pid ev)) (new_events w (snd (install_package ev rq w)))
  /\ (exists argv, In (EvRun argv 120) (new_events w (snd (install_package ev rq w)))).
Proof.
  intros Hchild Hran. trace_norm.
  all: try (cbn [times_out] in Hchild; discriminate Hchild).
  all: repeat split.
  all: try apply started_then_gone.
  all: try (cbn; tauto).
  all: eexists; cbn; eauto 10.
Qed.

(** The child exits with status 0 before the deadline, but what it wrote is
    not valid text: decoding raises inside [subprocess.run], and both
    handlers answer with a server error and [success = false]. *)
Lemma undecodable_exit_zero_is_server_error :
  child_exit (child (quiet_env 0 (Undecodable 0 decode_error))) = Some 0
  /\ ran_child (run_code (quiet_env 0 (Undecodable 0 decode_error))
                  (run_request hello_world)) boot = true
  /\ fst (run_code (quiet_env 0 (Undecodable 0 decode_error))
            (run_request hello_world) boot)
     = inr (Response
              (Result false []
                 (py "Server error: 'utf-8' codec can't decode byte 0xff in position 0: invalid start byte"))
              200)
  /\ fst (install_package (quiet_env 0 (Undecodable 0 decode_error))
            (install_request (py "numpy")) boot)
     = inr (Response
              (Result false []
                 (py "Server error: 'utf-8' codec can't decode byte 0xff in position 0: invalid start byte"))
              200).
Proof. repeat split; vm_compute; reflexivity. Qed.

(** The child exits with status 0 and readable output, but has put a
    directory in the place of its script: the unlink raises and the run
    handler answers with a server error. *)
Lemma completed_answer_lost_to_cleanup :
  fst (run_code (stubborn_env 0 (Completed 0 (py "done") []))
         (run_request hello_world) boot)
    = inr (Response
             (Result false []
                (py "Server error: [Errno 21] Is a directory: '/tmp/tmpk3v9x2ab.py'"))
             200).
Proof. vm_compute. reflexivity. Qed.

(** C6, amended. When [subprocess.run] returns, that is, the child ended
    before the deadline and its output was read and decoded, and, on the run
    path, the unlink of the temporary file does not raise, [success] is the
    test [returncode == 0], and [output] and [errors] are the captured stdout
    and stderr as they came; this is the ordinary answer of both handlers,
    also for a non-zero exit code.  A child that ended before the deadline
    but whose output cannot be decoded is answered with the server error of
    the decoding, and one that left the pipes held open is answered as a
    timeout. *)
Theorem completed_child_result ev rq w rc out err :
  child ev = Completed rc out err ->
  (ran_child (run_code ev rq) w = true ->
   unlink_fault ev = None ->
     fst (run_code ev rq w) = inr (Response (Result (rc =? 0) out err) 200))
  /\ (ran_child (install_package ev rq) w = true ->
     fst (install_package ev rq w) = inr (Response (Result (rc =? 0) out err) 200))
  /\ ((rc =? 0) = true <-> rc = 0).
Proof.
  intros Hchild. split; [|split].
  - intros Hran Hunlink. apply run_code_completed; assumption.
  - apply install_package_completed; assumption.
  - apply Z.eqb_eq.
Qed.

Lemma completed_child_result_witness :
  fst (run_code (quiet_env 0 (Completed 0 (py "Hello, World!" ++ [10%N]) []))
         (run_request hello_world) boot)
    = inr (Response (Result true (py "Hello, World!" ++ [10%N]) []) 200)
  /\ fst (install_package
            (quiet_env 0 (Completed 1 [] (py "ERROR: No matching distribution found for nosuchpkg")))
            (install_request (py "nosuchpkg")) boot)
     = inr (Response
              (Result false [] (py "ERROR: No matching distribution found for nosuchpkg"))
              200).
Proof.
  split.
  - apply (completed_child_result
             (quiet_env 0 (Completed 0 (py "Hello, World!" ++ [10%N]) []))
             (run_request hello_world) boot 0 (py "Hello, World!" ++ [10%N]) []);
      vm_compute; reflexivity.
  - apply (completed_child_result
             (quiet_env 0 (Completed 1 [] (py "ERROR: No matching distribution found for nosuchpkg")))
             (install_request (py "nosuchpkg")) boot 1 []
             (py "ERROR: No matching distribution found for nosuchpkg"));
      vm_compute; reflexivity.
Defined.

(** What else a child that ended before the deadline can be answered
    with: the server error of the decoding, or the timeout answer when the
    pipes stay open. *)
Lemma early_exit_other_answers ev rq w rc msg :
  unlink_fault ev = None ->
  (child ev = Undecodable rc msg ->
     (ran_child (run_code ev rq) w = true ->
        fst (run_code ev rq w) = inr (server_error msg))
     /\ (ran_child (install_package ev rq) w = true ->
        fst (install_package ev rq w) = inr (server_error msg)))
  /\ (child ev = PipeHeld rc ->
     (ran_child (run_code ev rq) w = true ->
        fst (run_code ev rq w) = inr (jsonify false [] run_timeout_message))
     /\ (ran_child (install_package ev rq) w = true ->
        fst (install_package ev rq w) = inr (jsonify false [] install_timeout_message))).
Proof.
  intros Hunlink. split; intros Hchild; split; intros Hran.
  - unfold server_error, jsonify. trace_norm; congruence.
  - unfold server_error, jsonify. trace_norm; congruence.
  - apply run_code_expired; [rewrite Hchild; reflexivity|assumption..].
  - apply install_package_expired; [rewrite Hchild; reflexivity|assumption].
Qed.

(** A child that writes the timeout message to stderr itself, writes nothing
    to stdout and exits with status 1 is answered exactly like a child that
    was killed at the deadline. *)
Lemma timeout_answer_not_exclusive :
  ran_child (run_code (quiet_env 0 (Completed 1 [] run_timeout_message))
               (run_request forged_timeout)) boot = true
  /\ fst (run_code (quiet_env 0 (Completed 1 [] run_timeout_message))
            (run_request forged_timeout) boot)
     = fst (run_code (quiet_env 0 Expired) (run_request forged_timeout) boot).
Proof. split; vm_compute; reflexivity. Qed.




(** ** Stripping and the package-name pattern (C3, C10) *)

Lemma allowed_not_space c : allowed c = true -> isspace c = false.
Proof.
  unfold allowed, isspace. intros H.
  repeat match goal with
         | H : (_ || _)%bool = true |- _ => apply orb_true_iff in H; destruct H as [H|H]
         | H : (_ && _)%bool = true |- _ => apply andb_true_iff in H; destruct H
         | H : (_ <=? _)%N = true |- _ => apply N.leb_le in H
         | H : (_ =? _)%N = true |- _ => apply N.eqb_eq in H
         end;
  repeat match goal with
         | |- (_ || _)%bool = false => apply orb_false_iff; split
         | |- (_ && _)%bool = false => apply andb_false_iff
         end;
  repeat match goal with
         | |- (_ =? _)%N = false => apply N.eqb_neq; lia
         | |- _ \/ _ => first [left; apply N.leb_gt; lia | right; apply N.leb_gt; lia]
         end.
Qed.

Lemma lstrip_head s c s' : lstrip s = c :: s' -> isspace c = false.
Proof.
  induction s as [|a s IH]; cbn; [discriminate|].
  destruct (isspace a) eqn:Ha; [exact IH|].
  intros [= <- <-]. exact Ha.
Qed.

Lemma lstrip_id s :
  match s with c :: _ => isspace c = false | [] => True end -> lstrip s = s.
Proof. destruct s as [|c s]; cbn; [reflexivity|]. intros ->. reflexivity. Qed.

(** What [strip] returns neither begins nor ends with white space. *)
Lemma strip_last s p c : strip s = p ++ [c] -> isspace c = false.
Proof.
  unfold strip, rstrip. intros H.
  apply (f_equal (@rev N)) in H. rewrite rev_involutive, rev_app_distr in H.
  cbn in H. eapply lstrip_head. exact H.
Qed.

Lemma strip_allowed s :
  Forall (fun c => allowed c = true) s -> strip s = s.
Proof.
  intros Hall. unfold strip, rstrip.
  rewrite (lstrip_id s).
  - rewrite lstrip_id; [apply rev_involutive|].
    destruct (rev s) as [|c r] eqn:E; [exact I|].
    apply allowed_not_space. rewrite Forall_forall in Hall. apply Hall.
    apply list_elem_of_In, in_rev. rewrite E. left. reflexivity.
  - destruct Hall; [exact I|]. apply allowed_not_space. assumption.
Qed.

Lemma span_allowed_spec s :
  let (run, rest) := span_allowed s in
  s = run ++ rest
  /\ Forall (fun c => allowed c = true) run
  /\ match rest with c :: _ => allowed c = false | [] => True end.
Proof.
  induction s as [|c s IH]; cbn; [auto|].
  destruct (allowed c) eqn:Hc; [|auto].
  destruct (span_allowed s) as [run rest]. destruct IH as (-> & Hall & Hrest).
  auto.
Qed.

Lemma span_allowed_app run rest :
  Forall (fun c => allowed c = true) run ->
  match rest with c :: _ => allowed c = false | [] => True end ->
  span_allowed (run ++ rest) = (run, rest).
Proof.
  intros Hall Hrest. induction Hall as [|a run Ha _ IH]; cbn.
  - destruct rest as [|c rest]; [reflexivity|]. cbn. rewrite Hrest. reflexivity.
  - rewrite Ha, IH. reflexivity.
Qed.

(** The pattern accepts exactly the non-empty strings of class characters,
    and those followed by one final newline. *)
Lemma re_match_package_spec p :
  re_match_package p = true <->
  p <> [] /\ (Forall (fun c => allowed c = true) p
              \/ exists q, q <> [] /\ p = q ++ [10%N]
                           /\ Forall (fun c => allowed c = true) q).
Proof.
  unfold re_match_package. split.
  - pose proof (span_allowed_spec p) as H.
    destruct (span_allowed p) as [run rest]. destruct H as (-> & Hall & Hrest).
    destruct run as [|a run]; [discriminate|].
    destruct rest as [|c [|d rest]]; try discriminate; intros Hm.
    + split; [discriminate|]. left. rewrite app_nil_r. exact Hall.
    + apply N.eqb_eq in Hm. subst c. split; [discriminate|].
      right. exists (a :: run). repeat split; [discriminate|exact Hall].
  - intros [Hne [Hp | (q & Hq & -> & Hallq)]].
    + rewrite <- (app_nil_r p), span_allowed_app by auto.
      destruct p; [congruence|reflexivity].
    + rewrite span_allowed_app by auto.
      destruct q; [congruence|reflexivity].
Qed.

(** On a stripped string the pattern is the plain class test. *)
Lemma re_match_package_strip s :
  re_match_package (strip s) = true <->
  strip s <> [] /\ Forall (fun c => allowed c = true) (strip s).
Proof.
  rewrite re_match_package_spec. split.
  - intros [Hne [Hall | (q & _ & Heq & _)]]; [auto|].
    apply strip_last in Heq. discriminate Heq.
  - intros [Hne Hall]. auto.
Qed.

(** The install handler on a JSON object that carries a text under
    ["package"]: the three ways it can go. *)
Lemma install_package_on_text ev ip fields raw w :
  assoc (py "package") fields = Some (JStr raw) ->
  install_package ev (Request POST ip (Json (JObj fields))) w =
    match strip raw with
    | [] => (inr (jsonify false [] (py "No package name provided")), w)
    | _ :: _ =>
        if re_match_package (strip raw)
        then try_except
               (let! result := subprocess_run ev (pip_argv ev (strip raw)) 120 in
                ret (jsonify (returncode result =? 0) (stdout result) (stderr result)))
               (fun e =>
                  match e with
                  | TimeoutExpired => ret (jsonify false [] install_timeout_message)
                  | Error msg => ret (server_error msg)
                  end) w
        else (inr (jsonify false [] invalid_package_message), w)
    end.
Proof.
  intros Hpkg.
  unfold install_package, install_package_try, get_json, dict_get, str_strip,
    try_except, bind, ret.
  cbn. rewrite Hpkg. cbn.
  destruct (strip raw) as [|c p]; [reflexivity|].
  destruct (re_match_package (c :: p)); reflexivity.
Qed.

(** The raw text " numpy" has a space, which is outside the class; the
    handler strips it first and starts pip on "numpy". *)
Lemma install_accepts_padded_name :
  (exists c, c ∈ py " numpy" /\ allowed c = false)
  /\ install_package (quiet_env 0 (Completed 0 (py "Successfully installed numpy") []))
       (install_request (py " numpy")) boot
     = (inr (Response (Result true (py "Successfully installed numpy") []) 200),
        World ∅ ∅ ∅ [EvRun [python3; py "-m"; py "pip"; py "install"; py "numpy"] 120]).
Proof.
  split.
  - exists 32%N. split; [|reflexivity]. vm_compute. constructor.
  - vm_compute. reflexivity.
Qed.

(** C3, amended. The handler strips surrounding white space from the raw
    text and validates the stripped text.  When the stripped text is empty or
    has a character outside the class, the answer is a validation error and
    the world is unchanged: no subprocess is started. *)
Theorem install_rejects_foreign_characters ev ip fields raw w :
  assoc (py "package") fields = Some (JStr raw) ->
  strip raw = [] \/ (exists c, c ∈ strip raw /\ allowed c = false) ->
  exists msg,
    install_package ev (Request POST ip (Json (JObj fields))) w
      = (inr (Response (Result false [] msg) 200), w)
    /\ (msg = py "No package name provided" \/ msg = invalid_package_message).
Proof.
  intros Hpkg Hbad. rewrite (install_package_on_text _ _ _ _ _ Hpkg).
  destruct (strip raw) as [|c p] eqn:Hs.
  - eexists. split; [reflexivity|]. left. reflexivity.
  - destruct Hbad as [Hnil | (x & Hin & Hx)]; [discriminate|].
    destruct (re_match_package (c :: p)) eqn:Hm.
    + exfalso. rewrite <- Hs in Hm. apply re_match_package_strip in Hm as [_ Hall].
      rewrite Hs in Hall. rewrite Forall_forall in Hall.
      specialize (Hall x Hin). congruence.
    + eexists. split; [reflexivity|]. right. reflexivity.
Qed.

Lemma install_rejects_foreign_characters_witness :
  exists msg,
    install_package (quiet_env 0 Expired) (install_request (py "numpy; rm -rf /")) boot
      = (inr (Response (Result false [] msg) 200), boot)
    /\ (msg = py "No package name provided" \/ msg = invalid_package_message).
Proof.
  apply (install_rejects_foreign_characters (quiet_env 0 Expired) client
           [(py "package", JStr (py "numpy; rm -rf /"))] (py "numpy; rm -rf /") boot).
  - reflexivity.
  - right. exists 59%N. split; [|reflexivity]. vm_compute. repeat constructor.
Defined.

(** C10. A raw text whose stripped form is non-empty and made of class
    characters passes validation, and the handler calls
    [subprocess.run] on [sys.executable, "-m", "pip", "install"] followed by
    the stripped text as the last argument, with nothing in between; a text
    made of class characters only is not changed by the stripping, so a
    leading hyphen reaches pip as written. *)
Theorem install_passes_package_to_pip ev ip fields raw w :
  assoc (py "package") fields = Some (JStr raw) ->
  strip raw <> [] ->
  Forall (fun c => allowed c = true) (strip raw) ->
  re_match_package (strip raw) = true
  /\ (exists rest,
        trace (snd (install_package ev (Request POST ip (Json (JObj fields))) w))
          = trace w
            ++ EvRun [sys_executable ev; py "-m"; py "pip"; py "install"; strip raw] 120
            :: rest)
  /\ (Forall (fun c => allowed c = true) raw -> strip raw = raw).
Proof.
  intros Hpkg Hne Hall.
  assert (Hm : re_match_package (strip raw) = true)
    by (apply re_match_package_strip; auto).
  split; [exact Hm|]. split; [|apply strip_allowed].
  rewrite (install_package_on_text _ _ _ _ _ Hpkg), Hm.
  destruct (strip raw) as [|c p]; [congruence|].
  unfold pip_argv. run_paths; rewrite <- ?app_assoc; cbn [app]; eauto.
Qed.

Lemma install_passes_package_to_pip_witness :
  re_match_package (py "--upgrade") = true
  /\ trace (snd (install_package (quiet_env 0 (Completed 2 [] (py "ERROR: You must give at least one requirement to install")))
                  (install_request (py "--upgrade")) boot))
     = [EvRun [python3; py "-m"; py "pip"; py "install"; py "--upgrade"] 120]
  /\ re_match_package (py "-U") = true.
Proof.
  destruct (install_passes_package_to_pip
              (quiet_env 0 (Completed 2 [] (py "ERROR: You must give at least one requirement to install")))
              client [(py "package", JStr (py "--upgrade"))] (py "--upgrade") boot)
    as (Hm & _ & _).
  { reflexivity. }
  { vm_compute. discriminate. }
  { vm_compute. repeat constructor. }
  destruct (install_passes_package_to_pip (quiet_env 0 Expired)
              client [(py "package", JStr (py " -U "))] (py " -U ") boot)
    as (Hu & _ & _).
  { reflexivity. }
  { vm_compute. discriminate. }
  { vm_compute. repeat constructor. }
  split; [exact Hm|]. split; [vm_compute; reflexivity|exact Hu].
Defined.

(** ** The temporary file on the run path (C4) *)


(** When the file has been created and the write raises, the file is still
    there when the handler returns. *)
Lemma run_code_keeps_unwritten_unit ev rq w name :
  In (EvCreate name) (new_events w (snd (run_code ev rq w))) ->
  (forall s, ~ In (EvWrite name s) (new_events w (snd (run_code ev rq w)))) ->
  files (snd (run_code ev rq w)) !! name = Some [].
Proof.
  intros Hin Hnot. trace_norm.
  all: cbn [In] in Hin; try tauto.
  all: repeat destruct Hin as [Hin|Hin]; try discriminate; try contradiction.
  all: injection Hin as ->.
  all: try apply lookup_insert_eq.
  all: exfalso; eapply Hnot; cbn; eauto.
Qed.

(** C4, at the failing input. The request carries the one-character code
    U+D800.  The file is created, [f.write] raises, the handler answers with
    a server error, and the file is still on disk afterwards: the [finally]
    that unlinks it only covers the call of the child. *)
Theorem run_code_leaks_unit_when_write_fails :
  run_code (utf8_env 0 (Completed 0 [] [])) (run_request [55296%N]) boot
    = (inr (Response
              (Result false []
                 (py "Server error: 'utf-8' codec can't encode character '\ud800' in position 0: surrogates not allowed"))
              200),
       World ∅ {[tmp_unit := []]} ∅ [EvCreate tmp_unit])
  /\ files (snd (run_code (utf8_env 0 (Completed 0 [] [])) (run_request [55296%N]) boot))
       !! tmp_unit = Some [].
Proof. split; vm_compute; reflexivity. Qed.

(** ** The sliding window (C1, C2) *)

Lemma install_package_returns ev rq w :
  exists r w', install_package ev rq w = (inr r, w') /\
    (r = Response Empty 204 \/ exists b o e, r = jsonify b o e).
Proof. run_paths; eauto 10. Qed.

(** What one request does to the cache, and whether it is turned away. *)
Lemma dispatch_cache ep ev rq w :
  let l := kept (snd (policy_of ep)) (time_time ev)
             (rate_limit_cache w) (remote_addr rq) in
  if Z.of_nat (length l) >=? fst (policy_of ep)
  then rejected (fst (dispatch ep ev rq w)) = true
       /\ rate_limit_cache (snd (dispatch ep ev rq w))
          = <[remote_addr rq := l]> (rate_limit_cache w)
  else rejected (fst (dispatch ep ev rq w)) = false
       /\ rate_limit_cache (snd (dispatch ep ev rq w))
          = <[remote_addr rq := l ++ [time_time ev]]> (rate_limit_cache w).
Proof.
  intros l.
  assert (Hgen : forall mx win f,
    (forall ev rq, preserves rate_limit_cache (f ev rq)) ->
    (forall ev rq w, exists r w', f ev rq w = (inr r, w') /\
        (r = Response Empty 204 \/ exists b o e, r = jsonify b o e)) ->
    let l := kept win (time_time ev) (rate_limit_cache w) (remote_addr rq) in
    if Z.of_nat (length l) >=? mx
    then rejected (fst (rate_limit mx win f ev rq w)) = true
         /\ rate_limit_cache (snd (rate_limit mx win f ev rq w))
            = <[remote_addr rq := l]> (rate_limit_cache w)
    else rejected (fst (rate_limit mx win f ev rq w)) = false
         /\ rate_limit_cache (snd (rate_limit mx win f ev rq w))
            = <[remote_addr rq := l ++ [time_time ev]]> (rate_limit_cache w)).
  { intros mx win f Hf Hr l'. rewrite rate_limit_unfold. cbn zeta. fold l'.
    destruct (Z.of_nat (length l') >=? mx); [split; reflexivity|].
    split.
    - destruct (Hr ev rq (with_cache (<[remote_addr rq := l' ++ [time_time ev]]>
                                         (rate_limit_cache w)) w))
        as (r & w' & -> & [-> | (b & o & e & ->)]); reflexivity.
    - rewrite Hf. reflexivity. }
  destruct ep; cbn [policy_of fst snd dispatch] in *.
  - apply (Hgen 20 60 run_code run_code_cache run_code_returns).
  - apply (Hgen 10 300 install_package install_package_cache install_package_returns).
Qed.

Lemma serve_cons c calls w :
  fst (serve (c :: calls) w)
    = fst (dispatch (target c) (call_env c) (call_req c) w)
      :: fst (serve calls (snd (dispatch (target c) (call_env c) (call_req c) w))).
Proof.
  cbn. destruct (dispatch _ _ _ w) as [r w']. cbn.
  destruct (serve calls w') as [rs w'']. reflexivity.
Qed.

Lemma filter_length_mono {A} (P Q : A -> Prop)
    `{!forall x, Decision (P x), !forall x, Decision (Q x)} (l : list A) :
  (forall x, P x -> Q x) -> (length (filter P l) <= length (filter Q l))%nat.
Proof.
  intros HPQ. induction l as [|x l IH]; [reflexivity|].
  rewrite !filter_cons.
  destruct (decide (P x)) as [HP|HP]; destruct (decide (Q x)) as [HQ|HQ]; cbn; try lia.
  exfalso. auto.
Qed.

Section Budget.
Variable ep : endpoint.
Variable ip : pystr.

Let mx := fst (policy_of ep).
Let win := snd (policy_of ep).

(** [h_any] lists the timestamps accepted for the client so far at either
    route, [h_ep] those accepted at [ep].  As long as no call prunes with a
    window shorter than this policy's, the cache holds every accepted
    timestamp the policy can still see, and the count in any window stays
    within the budget. *)
Lemma budget_inv calls : forall w last h_any h_ep,
  clock_monotone last calls ->
  Forall (fun c => win <= snd (policy_of (target c))) calls ->
  (forall now, (last <= now)%Q ->
     recent win now (rate_limit_cache w !!! ip) = recent win now h_any) ->
  (forall now, (length (recent win now h_ep) <= length (recent win now h_any))%nat) ->
  (forall a, Z.of_nat (in_window a win h_ep) <= mx) ->
  forall a,
    Z.of_nat (in_window a win
                (h_ep ++ accepted_times ep ip calls (fst (serve calls w)))) <= mx.
Proof.
  induction calls as [|c calls IH]; intros w last h_any h_ep Hclock Hwin I1 I2 HP a.
  { cbn. rewrite app_nil_r. apply HP. }
  destruct Hclock as [Hle Hclock]. inversion Hwin as [|? ? Hwc Hwin']; subst.
  rewrite serve_cons. cbn [accepted_times].
  pose proof (dispatch_cache (target c) (call_env c) (call_req c) w) as Hstep.
  cbn zeta in Hstep.
  set (now := time_time (call_env c)) in *.
  set (d := dispatch (target c) (call_env c) (call_req c) w) in *.
  set (l := kept (snd (policy_of (target c))) now (rate_limit_cache w)
              (remote_addr (call_req c))) in *.
  rewrite Zle_Qle in Hwc.
  destruct (decide (remote_addr (call_req c) = ip)) as [Hip|Hip].
  - (* a call of this client *)
    assert (Hrec : forall now', (now <= now')%Q ->
              recent win now' l = recent win now' h_any).
    { intros now' Hnow'. unfold l, kept, recent. rewrite Hip.
      rewrite list_filter_filter_l by (intros t; lra).
      apply I1. lra. }
    destruct (Z.of_nat (length l) >=? fst (policy_of (target c))) eqn:Hfull;
      destruct Hstep as [Hrej Hcache].
    + (* turned away: nothing is recorded *)
      rewrite Hrej, andb_false_r. cbn [app].
      apply (IH (snd d) now h_any h_ep); auto.
      intros now' Hnow'. rewrite Hcache, Hip, lookup_total_insert_eq.
      apply Hrec, Hnow'.
    + rewrite Hrej, andb_true_r.
      assert (Hcache' : forall now', (now <= now')%Q ->
                recent win now' (rate_limit_cache (snd d) !!! ip)
                = recent win now' (h_any ++ [now])).
      { intros now' Hnow'. rewrite Hcache, Hip, lookup_total_insert_eq.
        unfold recent. rewrite !filter_app. f_equal. apply Hrec, Hnow'. }
      destruct (bool_decide (target c = ep /\ remote_addr (call_req c) = ip)) eqn:Hep.
      * (* accepted at this endpoint *)
        apply bool_decide_eq_true in Hep as [Hep _].
        rewrite app_assoc.
        apply (IH (snd d) now (h_any ++ [now]) (h_ep ++ [now])); auto.
        { intros now'. unfold recent. rewrite !filter_app, !length_app.
          specialize (I2 now'). unfold recent in I2. lia. }
        intros b. unfold in_window. rewrite filter_app, length_app.
        destruct (decide ((b <= now)%Q /\ (now < b + inject_Z win)%Q)) as [Hin|Hout].
        -- rewrite filter_cons_True, filter_nil by exact Hin. cbn [length].
           assert (Hlen : (length (filter (fun t => (b <= t)%Q
                                               /\ (t < b + inject_Z win)%Q) h_ep)
                           <= length l)%nat).
           { etransitivity; [|etransitivity; [apply (I2 now)|]].
             - unfold recent. apply filter_length_mono. intros t. lra.
             - rewrite <- (Hrec now) by lra. apply length_filter. }
           rewrite Hep in Hfull. fold mx in Hfull. lia.
        -- rewrite filter_cons_False, filter_nil by exact Hout. cbn [length].
           specialize (HP b). unfold in_window in HP. lia.
      * (* accepted at the other endpoint *)
        cbn [app].
        apply (IH (snd d) now (h_any ++ [now]) h_ep); auto.
        intros now'. unfold recent. rewrite filter_app, length_app.
        specialize (I2 now'). unfold recent in I2. lia.
  - (* a call of another client *)
    rewrite bool_decide_eq_false_2 by (intros [_ ?]; contradiction).
    cbn [andb app].
    apply (IH (snd d) now h_any h_ep); auto.
    intros now' Hnow'.
    assert (Hsame : rate_limit_cache (snd d) !!! ip = rate_limit_cache w !!! ip).
    { destruct (Z.of_nat (length l) >=? _); destruct Hstep as [_ ->];
        apply lookup_total_insert_ne; exact Hip. }
    rewrite Hsame. apply I1. lra.
Qed.
End Budget.

(** X1. The run budget holds in every session: no more than 20 accepted run
    requests of one client in any 60 seconds, whatever else is requested in
    between, because the run window is the shortest one in use. *)
Theorem run_budget_respected calls w last ip a :
  rate_limit_cache w !!! ip = [] ->
  clock_monotone last calls ->
  Z.of_nat (in_window a 60 (accepted_times ApiRun ip calls (fst (serve calls w)))) <= 20.
Proof.
  intros Hfresh Hclock.
  apply (budget_inv ApiRun ip calls w last [] [] Hclock).
  - apply Forall_forall. intros c _. destruct (target c); cbn; lia.
  - intros now _. rewrite Hfresh. reflexivity.
  - intros now. reflexivity.
  - intros b. cbn. lia.
Qed.

(** X2. A session in which every request goes to one endpoint keeps that
    endpoint's budget. *)
Theorem budget_respected_alone ep calls w last ip a :
  rate_limit_cache w !!! ip = [] ->
  clock_monotone last calls ->
  Forall (fun c => target c = ep) calls ->
  Z.of_nat (in_window a (snd (policy_of ep))
              (accepted_times ep ip calls (fst (serve calls w))))
    <= fst (policy_of ep).
Proof.
  intros Hfresh Hclock Hep.
  apply (budget_inv ep ip calls w last [] [] Hclock).
  - eapply Forall_impl; [exact Hep|]. intros c ->. cbn. lia.
  - intros now _. rewrite Hfresh. reflexivity.
  - intros now. reflexivity.
  - intros b. destruct ep; cbn; lia.
Qed.

(** A turned-away call leaves the client's entry as the pruning made it: the
    time of the call is not recorded. *)
Lemma rejected_records_nothing ep ev rq w :
  rejected (fst (dispatch ep ev rq w)) = true ->
  rate_limit_cache (snd (dispatch ep ev rq w)) !!! remote_addr rq
    = kept (snd (policy_of ep)) (time_time ev) (rate_limit_cache w) (remote_addr rq).
Proof.
  intros Hrej. pose proof (dispatch_cache ep ev rq w) as H. cbn zeta in H.
  destruct (Z.of_nat _ >=? _); destruct H as [Hr ->]; [|congruence].
  apply lookup_total_insert_eq.
Qed.

(** C1, at the failing input. One client sends ten install requests at time
    0, one run request at time 61 and nine install requests at time 62.  The
    clock never runs backwards and no request is turned away, so nineteen
    install requests are accepted between times 0 and 62, inside one window
    of 300 seconds whose budget is 10: the run request pruned the shared
    entry of the client with its own 60-second window. *)
Theorem install_budget_exceeded_in_mixed_session :
  clock_monotone 0 mixed_session
  /\ statuses (fst (serve mixed_session boot)) = repeat 200 20
  /\ accepted_times ApiInstall client mixed_session (fst (serve mixed_session boot))
     = repeat 0%Q 10 ++ repeat 62%Q 9
  /\ in_window 0 300
       (accepted_times ApiInstall client mixed_session (fst (serve mixed_session boot)))
     = 19%nat
  /\ ~ (Z.of_nat (in_window 0 (snd (policy_of ApiInstall))
                    (accepted_times ApiInstall client mixed_session
                       (fst (serve mixed_session boot))))
        <= fst (policy_of ApiInstall))
  /\ rate_limit_cache (snd (serve (take 11 mixed_session) boot)) !! client = Some [61%Q].
Proof.
  split.
  { unfold mixed_session. cbn -[Qle].
    repeat (split; [apply Qle_bool_iff; reflexivity|]). exact I. }
  repeat split; try (vm_compute; reflexivity).
  vm_compute. intros H. apply H. reflexivity.
Qed.

(** C2, at the failing input. After ten accepted run requests at time 0 the
    cache holds ten timestamps for the client; an install request at time 1,
    the first the client ever makes, is turned away with the install policy's
    message, while the same request on a fresh server is served.  In the
    other direction, a run request at time 61 erases the timestamp of an
    install request made at time 0, which the install policy would keep
    until time 300.  Both decorated routes read and write the one
    [rate_limit_cache]. *)
Theorem run_requests_exhaust_install_budget :
  let runs := repeat (Call ApiRun (quiet_env 0 ok) (run_request hello_world)) 10 in
  statuses (fst (serve runs boot)) = repeat 200 10
  /\ rate_limit_cache (snd (serve runs boot)) !! client = Some (repeat 0%Q 10)
  /\ fst (api_install (quiet_env 1 ok) (install_request (py "numpy")) (snd (serve runs boot)))
     = inr (Response
              (Result false []
                 (py "Rate limit exceeded. Maximum 10 requests per 300 seconds."))
              429)
  /\ fst (api_install (quiet_env 1 ok) (install_request (py "numpy")) boot)
     = inr (Response (Result true [] []) 200)
  /\ rate_limit_cache
       (snd (api_install (quiet_env 0 ok) (install_request (py "numpy")) boot))
       !! client = Some [0%Q]
  /\ rate_limit_cache
       (snd (serve [Call ApiInstall (quiet_env 0 ok) (install_request (py "numpy"));
                    Call ApiRun (quiet_env 61 ok) (run_request hello_world)] boot))
       !! client = Some [61%Q].
Proof. repeat split; vm_compute; reflexivity. Qed.

(** ** More on the limiter *)

Lemma monotone_burst : clock_monotone 0 burst_session.
Proof.
  unfold burst_session. cbn -[Qle].
  repeat (split; [apply Qle_bool_iff; reflexivity|]). exact I.
Qed.

Lemma monotone_installs : clock_monotone 0 install_session.
Proof.
  unfold install_session. cbn -[Qle].
  repeat (split; [apply Qle_bool_iff; reflexivity|]). exact I.
Qed.

Lemma monotone_mixed : clock_monotone 0 mixed_session.
Proof.
  unfold mixed_session. cbn -[Qle].
  repeat (split; [apply Qle_bool_iff; reflexivity|]). exact I.
Qed.

Lemma run_budget_respected_witness :
  Z.of_nat (in_window 0 60
              (accepted_times ApiRun client burst_session
                 (fst (serve burst_session boot)))) <= 20.
Proof.
  apply (run_budget_respected burst_session boot 0 client 0).
  - reflexivity.
  - exact monotone_burst.
Defined.

Lemma budget_respected_alone_witness :
  Z.of_nat (in_window 0 300
              (accepted_times ApiInstall client install_session
                 (fst (serve install_session boot)))) <= 10.
Proof.
  apply (budget_respected_alone ApiInstall install_session boot 0 client 0).
  - reflexivity.
  - exact monotone_installs.
  - unfold install_session. apply Forall_forall. intros c Hc.
    apply list_elem_of_fmap in Hc as (k & -> & _). reflexivity.
Defined.

(** The count in a window no longer than any window in use stays within
    [mx], a bound on the endpoint's own maximum. *)
Lemma shortest_window_inv (ep : endpoint) (ip : pystr) (win mx : Z) calls :
  forall w last h_any h_ep,
  clock_monotone last calls ->
  Forall (fun c => win <= snd (policy_of (target c))) calls ->
  fst (policy_of ep) <= mx ->
  (forall now, (last <= now)%Q ->
     recent win now (rate_limit_cache w !!! ip) = recent win now h_any) ->
  (forall now, (length (recent win now h_ep) <= length (recent win now h_any))%nat) ->
  (forall a, Z.of_nat (in_window a win h_ep) <= mx) ->
  forall a,
    Z.of_nat (in_window a win
                (h_ep ++ accepted_times ep ip calls (fst (serve calls w)))) <= mx.
Proof.
  induction calls as [|c calls IH];
    intros w last h_any h_ep Hclock Hwin Hmx I1 I2 HP a.
  { cbn. rewrite app_nil_r. apply HP. }
  destruct Hclock as [Hle Hclock]. inversion Hwin as [|? ? Hwc Hwin']; subst.
  rewrite serve_cons. cbn [accepted_times].
  pose proof (dispatch_cache (target c) (call_env c) (call_req c) w) as Hstep.
  cbn zeta in Hstep.
  set (now := time_time (call_env c)) in *.
  set (d := dispatch (target c) (call_env c) (call_req c) w) in *.
  set (l := kept (snd (policy_of (target c))) now (rate_limit_cache w)
              (remote_addr (call_req c))) in *.
  rewrite Zle_Qle in Hwc.
  destruct (decide (remote_addr (call_req c) = ip)) as [Hip|Hip].
  - assert (Hrec : forall now', (now <= now')%Q ->
              recent win now' l = recent win now' h_any).
    { intros now' Hnow'. unfold l, kept, recent. rewrite Hip.
      rewrite list_filter_filter_l by (intros t; lra).
      apply I1. lra. }
    destruct (Z.of_nat (length l) >=? fst (policy_of (target c))) eqn:Hfull;
      destruct Hstep as [Hrej Hcache].
    + rewrite Hrej, andb_false_r. cbn [app].
      apply (IH (snd d) now h_any h_ep); auto.
      intros now' Hnow'. rewrite Hcache, Hip, lookup_total_insert_eq.
      apply Hrec, Hnow'.
    + rewrite Hrej, andb_true_r.
      assert (Hcache' : forall now', (now <= now')%Q ->
                recent win now' (rate_limit_cache (snd d) !!! ip)
                = recent win now' (h_any ++ [now])).
      { intros now' Hnow'. rewrite Hcache, Hip, lookup_total_insert_eq.
        unfold recent. rewrite !filter_app. f_equal. apply Hrec, Hnow'. }
      destruct (bool_decide (target c = ep /\ remote_addr (call_req c) = ip)) eqn:Hep.
      * apply bool_decide_eq_true in Hep as [Hep _].
        rewrite app_assoc.
        apply (IH (snd d) now (h_any ++ [now]) (h_ep ++ [now])); auto.
        { intros now'. unfold recent. rewrite !filter_app, !length_app.
          specialize (I2 now'). unfold recent in I2. lia. }
        intros b. unfold in_window. rewrite filter_app, length_app.
        destruct (decide ((b <= now)%Q /\ (now < b + inject_Z win)%Q)) as [Hin|Hout].
        -- rewrite filter_cons_True, filter_nil by exact Hin. cbn [length].
           assert (Hlen : (length (filter (fun t => (b <= t)%Q
                                               /\ (t < b + inject_Z win)%Q) h_ep)
                           <= length l)%nat).
           { etransitivity; [|etransitivity; [apply (I2 now)|]].
             - unfold recent. apply filter_length_mono. intros t. lra.
             - rewrite <- (Hrec now) by lra. apply length_filter. }
           rewrite Hep in Hfull. lia.
        -- rewrite filter_cons_False, filter_nil by exact Hout. cbn [length].
           specialize (HP b). unfold in_window in HP. lia.
      * cbn [app].
        apply (IH (snd d) now (h_any ++ [now]) h_ep); auto.
        intros now'. unfold recent. rewrite filter_app, length_app.
        specialize (I2 now'). unfold recent in I2. lia.
  - rewrite bool_decide_eq_false_2 by (intros [_ ?]; contradiction).
    cbn [andb app].
    apply (IH (snd d) now h_any h_ep); auto.
    intros now' Hnow'.
    assert (Hsame : rate_limit_cache (snd d) !!! ip = rate_limit_cache w !!! ip).
    { destruct (Z.of_nat (length l) >=? _); destruct Hstep as [_ ->];
        apply lookup_total_insert_ne; exact Hip. }
    rewrite Hsame. apply I1. lra.
Qed.

(** X3. Whatever else a client requests, no more than 10 of its install
    requests are accepted in any 60 seconds: this is the install bound that
    survives the pruning done by run requests. *)
Theorem install_budget_per_minute calls w last ip a :
  rate_limit_cache w !!! ip = [] ->
  clock_monotone last calls ->
  Z.of_nat (in_window a 60
              (accepted_times ApiInstall ip calls (fst (serve calls w)))) <= 10.
Proof.
  intros Hfresh Hclock.
  apply (shortest_window_inv ApiInstall ip 60 10 calls w last [] [] Hclock).
  - apply Forall_forall. intros c _. destruct (target c); cbn; lia.
  - cbn. lia.
  - intros now _. rewrite Hfresh. reflexivity.
  - intros now. reflexivity.
  - intros b. cbn. lia.
Qed.

Lemma install_budget_per_minute_witness :
  Z.of_nat (in_window 2 60
              (accepted_times ApiInstall client mixed_session
                 (fst (serve mixed_session boot)))) <= 10.
Proof.
  apply (install_budget_per_minute mixed_session boot 0 client 2).
  - reflexivity.
  - exact monotone_mixed.
Defined.

(** X4. A request the limiter turns away is answered with status 429 and
    the message that names the policy's numbers; the handler is not run, so
    the files, the live children and the log of system calls are as before,
    and the only change is the pruning of the client's entry: the time of
    the request is not recorded. *)
Theorem rejected_skips_handler ep ev rq w :
  rejected (fst (dispatch ep ev rq w)) = true ->
  dispatch ep ev rq w
    = (inr (Response
              (Result false []
                 (rate_limit_message (fst (policy_of ep)) (snd (policy_of ep))))
              429),
       with_cache
         (<[remote_addr rq :=
              kept (snd (policy_of ep)) (time_time ev) (rate_limit_cache w)
                (remote_addr rq)]> (rate_limit_cache w)) w).
Proof.
  intros Hrej. pose proof (dispatch_cache ep ev rq w) as H. cbn zeta in H.
  destruct (Z.of_nat _ >=? _) eqn:Hfull; destruct H as [Hr _]; [|congruence].
  destruct ep; cbn [policy_of fst snd dispatch] in *; unfold api_run, api_install;
    rewrite rate_limit_unfold; cbn zeta; rewrite Hfull; reflexivity.
Qed.

Lemma rejected_skips_handler_witness :
  dispatch ApiRun (quiet_env 1 ok) (run_request hello_world)
      (snd (serve (firstn 20 burst_session) boot))
    = (inr (Response
              (Result false []
                 (py "Rate limit exceeded. Maximum 20 requests per 60 seconds."))
              429),
       snd (serve (firstn 20 burst_session) boot)).
Proof.
  etransitivity.
  - apply (rejected_skips_handler ApiRun (quiet_env 1 ok) (run_request hello_world)
             (snd (serve (firstn 20 burst_session) boot))).
    vm_compute. reflexivity.
  - vm_compute. reflexivity.
Defined.

(** X5. A request the limiter lets through costs one slot whatever the
    handler then does with it (a pre-flight, a validation error and a server
    error count like a run): the client's entry becomes the pruned entry
    followed by the time of the request. *)
Theorem accepted_records_time ep ev rq w :
  rejected (fst (dispatch ep ev rq w)) = false ->
  rate_limit_cache (snd (dispatch ep ev rq w)) !!! remote_addr rq
    = kept (snd (policy_of ep)) (time_time ev) (rate_limit_cache w) (remote_addr rq)
      ++ [time_time ev].
Proof.
  intros Hacc. pose proof (dispatch_cache ep ev rq w) as H. cbn zeta in H.
  destruct (Z.of_nat _ >=? _); destruct H as [Hr ->]; [congruence|].
  apply lookup_total_insert_eq.
Qed.

Lemma accepted_records_time_witness :
  rate_limit_cache (snd (dispatch ApiInstall (quiet_env 7 ok) (post_json []) boot))
    !!! client = [7%Q].
Proof.
  etransitivity.
  - apply (accepted_records_time ApiInstall (quiet_env 7 ok) (post_json []) boot).
    vm_compute. reflexivity.
  - vm_compute. reflexivity.
Defined.

Lemma recent_nil_of_old (window : Z) (now : Q) (l : list Q) :
  Forall (fun t => (inject_Z window <= now - t)%Q) l -> recent window now l = [].
Proof.
  unfold recent. induction 1 as [|t l Ht _ IH]; [reflexivity|].
  rewrite filter_cons_False by lra. exact IH.
Qed.

(** X6. A client none of whose recorded timestamps is younger than the
    policy's window is let through; in particular the first request of a
    client, and a request made a full window after the client's last one. *)
Theorem quiet_client_accepted ep ev rq w :
  Forall (fun t => (inject_Z (snd (policy_of ep)) <= time_time ev - t)%Q)
    (rate_limit_cache w !!! remote_addr rq) ->
  rejected (fst (dispatch ep ev rq w)) = false.
Proof.
  intros Hold. pose proof (dispatch_cache ep ev rq w) as H. cbn zeta in H.
  unfold kept in H. rewrite (recent_nil_of_old _ _ _ Hold) in H.
  destruct ep; cbn in H; apply H.
Qed.

Lemma quiet_client_accepted_witness :
  rejected (fst (dispatch ApiRun (quiet_env 60 ok) (run_request hello_world)
                   (snd (serve (firstn 20 burst_session) boot)))) = false.
Proof.
  apply (quiet_client_accepted ApiRun (quiet_env 60 ok) (run_request hello_world)
           (snd (serve (firstn 20 burst_session) boot))).
  apply Forall_forall. intros t Ht.
  assert (Hc : rate_limit_cache (snd (serve (firstn 20 burst_session) boot))
                 !!! remote_addr (run_request hello_world) = repeat 0%Q 20)
    by (vm_compute; reflexivity).
  rewrite Hc in Ht. apply list_elem_of_In, repeat_spec in Ht. subst t.
  apply Qle_bool_iff. reflexivity.
Defined.

(** X7. After a request, accepted or not, every timestamp left in the
    client's entry is younger than the window of the policy that served the
    request. *)
Theorem entry_within_window ep ev rq w :
  Forall (fun t => (time_time ev - t < inject_Z (snd (policy_of ep)))%Q)
    (rate_limit_cache (snd (dispatch ep ev rq w)) !!! remote_addr rq).
Proof.
  pose proof (dispatch_cache ep ev rq w) as H. cbn zeta in H.
  assert (Hkept : Forall (fun t => (time_time ev - t < inject_Z (snd (policy_of ep)))%Q)
                    (kept (snd (policy_of ep)) (time_time ev) (rate_limit_cache w)
                       (remote_addr rq))).
  { unfold kept, recent. apply Forall_forall. intros t Ht.
    apply list_elem_of_filter in Ht as [Ht _]. exact Ht. }
  destruct (Z.of_nat _ >=? _); destruct H as [_ ->]; rewrite lookup_total_insert_eq.
  - exact Hkept.
  - apply Forall_app. split; [exact Hkept|].
    constructor; [|constructor].
    destruct ep; cbn; unfold inject_Z; lra.
Qed.

Lemma serve_snd_cons c calls w :
  snd (serve (c :: calls) w)
    = snd (serve calls (snd (dispatch (target c) (call_env c) (call_req c) w))).
Proof.
  cbn. destruct (dispatch _ _ _ w) as [r w']. cbn.
  destruct (serve calls w') as [rs w'']. reflexivity.
Qed.

(** X8. The cache never holds more than 20 timestamps for a client: if no
    entry is longer than 20 before a session, none is after it, whatever the
    clock does. *)
Theorem cache_entries_bounded calls : forall w,
  (forall ip, (length (rate_limit_cache w !!! ip) <= 20)%nat) ->
  forall ip, (length (rate_limit_cache (snd (serve calls w)) !!! ip) <= 20)%nat.
Proof.
  induction calls as [|c calls IH]; intros w Hw; [exact Hw|].
  rewrite serve_snd_cons. apply IH. intros ip.
  pose proof (dispatch_cache (target c) (call_env c) (call_req c) w) as H.
  cbn zeta in H.
  set (l := kept _ _ _ _) in H.
  assert (Hl : (length l <= 20)%nat).
  { unfold l, kept, recent. etransitivity; [apply length_filter|apply Hw]. }
  destruct (decide (remote_addr (call_req c) = ip)) as [<-|Hne].
  - destruct (Z.of_nat (length l) >=? _) eqn:Hfull; destruct H as [_ ->];
      rewrite lookup_total_insert_eq; [exact Hl|].
    rewrite length_app. cbn [length].
    destruct (target c); cbn in Hfull; lia.
  - destruct (Z.of_nat (length l) >=? _); destruct H as [_ ->];
      rewrite lookup_total_insert_ne by exact Hne; apply Hw.
Qed.

Lemma cache_entries_bounded_witness :
  (length (rate_limit_cache (snd (serve burst_session boot)) !!! client) <= 20)%nat.
Proof.
  apply (cache_entries_bounded burst_session boot).
  intros ip. unfold boot. cbn [rate_limit_cache].
  rewrite lookup_total_empty. cbn. lia.
Defined.

(** X9. No entry is ever removed from the cache: after a session the cache
    holds an entry for exactly the clients it had one for before and the
    clients that sent a request, accepted or not. *)
Theorem cache_never_evicts calls : forall w,
  dom (rate_limit_cache (snd (serve calls w)))
    = dom (rate_limit_cache w) ∪ callers calls.
Proof.
  unfold callers.
  induction calls as [|c calls IH]; intros w.
  - cbn. rewrite union_empty_r_L. reflexivity.
  - rewrite serve_snd_cons, IH. cbn [map list_to_set].
    pose proof (dispatch_cache (target c) (call_env c) (call_req c) w) as H.
    cbn zeta in H.
    destruct (Z.of_nat _ >=? _); destruct H as [_ ->];
      rewrite dom_insert_L, (union_comm_L {[remote_addr (call_req c)]}),
        (union_assoc_L (dom (rate_limit_cache w))); reflexivity.
Qed.

(** X10. A route never raises, and it answers in one of three ways: the
    limiter's 429 with the message naming the policy, the empty 204 for a
    pre-flight request, or a three-field result with status 200 for a POST. *)
Theorem route_answers ep ev rq w :
  exists r, fst (dispatch ep ev rq w) = inr r
    /\ (r = Response
              (Result false []
                 (rate_limit_message (fst (policy_of ep)) (snd (policy_of ep)))) 429
        \/ method rq = OPTIONS /\ r = Response Empty 204
        \/ method rq = POST /\ exists b o e, r = Response (Result b o e) 200).
Proof.
  assert (Hrun : forall w1, exists r, fst (run_code ev rq w1) = inr r
            /\ (method rq = OPTIONS /\ r = Response Empty 204
                \/ method rq = POST /\ exists b o e, r = Response (Result b o e) 200)).
  { intros w1. unfold jsonify, server_error. run_paths; eauto 10. }
  assert (Hins : forall w1, exists r, fst (install_package ev rq w1) = inr r
            /\ (method rq = OPTIONS /\ r = Response Empty 204
                \/ method rq = POST /\ exists b o e, r = Response (Result b o e) 200)).
  { intros w1. unfold jsonify, server_error. run_paths; eauto 10. }
  destruct ep; cbn [dispatch policy_of fst snd]; unfold api_run, api_install;
    rewrite rate_limit_unfold; cbn zeta;
    (destruct (Z.of_nat _ >=? _); [eexists; split; [reflexivity|left; reflexivity]|]).
  - destruct (Hrun (with_cache
                      (<[remote_addr rq := kept 60 (time_time ev) (rate_limit_cache w)
                                             (remote_addr rq) ++ [time_time ev]]>
                         (rate_limit_cache w)) w)) as (r & Hr & Hshape).
    exists r. split; [exact Hr|right; exact Hshape].
  - destruct (Hins (with_cache
                      (<[remote_addr rq := kept 300 (time_time ev) (rate_limit_cache w)
                                             (remote_addr rq) ++ [time_time ev]]>
                         (rate_limit_cache w)) w)) as (r & Hr & Hshape).
    exists r. split; [exact Hr|right; exact Hshape].
Qed.


(** The answer of a handler does not depend on the world it runs in. *)
Ltac absurd_exists :=
  repeat match goal with
         | H : bool_decide (is_Some (<[_:=_]> _ !! _)) = false |- _ =>
             exfalso; rewrite lookup_insert_eq in H; cbn in H; congruence
         end.

Lemma run_code_answer_indep ev rq w w' :
  fst (run_code ev rq w) = fst (run_code ev rq w').
Proof.
  run_paths; try reflexivity; absurd_exists.
  all: repeat match goal with
         | H : bool_decide (is_Some (child_touch _ (<[_:=_]> _) !! _)) = _ |- _ =>
             rewrite script_after_child in H
         end.
  all: congruence.
Qed.

Lemma install_package_answer_indep ev rq w w' :
  fst (install_package ev rq w) = fst (install_package ev rq w').
Proof. run_paths; reflexivity. Qed.

(** The answer of a route, and what it leaves in the caller's entry, depend
    on the world only through the caller's entry. *)
Lemma dispatch_local ep ev rq w w' :
  rate_limit_cache w !!! remote_addr rq = rate_limit_cache w' !!! remote_addr rq ->
  fst (dispatch ep ev rq w) = fst (dispatch ep ev rq w')
  /\ rate_limit_cache (snd (dispatch ep ev rq w)) !!! remote_addr rq
     = rate_limit_cache (snd (dispatch ep ev rq w')) !!! remote_addr rq.
Proof.
  intros Hsame.
  pose proof (dispatch_cache ep ev rq w) as H. cbn zeta in H.
  pose proof (dispatch_cache ep ev rq w') as H'. cbn zeta in H'.
  unfold kept in H, H'. rewrite <- Hsame in H'.
  split.
  - destruct ep; cbn [dispatch]; unfold api_run, api_install;
      rewrite !rate_limit_unfold; cbn zeta; unfold kept; rewrite <- Hsame;
      (destruct (Z.of_nat _ >=? _); [reflexivity|]).
    + apply run_code_answer_indep.
    + apply install_package_answer_indep.
  - destruct (Z.of_nat _ >=? _); destruct H as [_ ->]; destruct H' as [_ ->];
      rewrite !lookup_total_insert_eq; reflexivity.
Qed.

Lemma dispatch_other ep ev rq w ip :
  remote_addr rq <> ip ->
  rate_limit_cache (snd (dispatch ep ev rq w)) !!! ip = rate_limit_cache w !!! ip.
Proof.
  intros Hne. pose proof (dispatch_cache ep ev rq w) as H. cbn zeta in H.
  destruct (Z.of_nat _ >=? _); destruct H as [_ ->];
    apply lookup_total_insert_ne; exact Hne.
Qed.

Lemma responses_local ip calls : forall w w',
  rate_limit_cache w !!! ip = rate_limit_cache w' !!! ip ->
  responses_to ip calls (fst (serve calls w)) = fst (serve (calls_of ip calls) w').
Proof.
  unfold calls_of.
  induction calls as [|c calls IH]; intros w w' Hsame; [reflexivity|].
  rewrite serve_cons. cbn [responses_to].
  destruct (decide (remote_addr (call_req c) = ip)) as [Hip|Hip].
  - rewrite filter_cons_True by exact Hip. rewrite serve_cons.
    rewrite <- Hip in Hsame.
    destruct (dispatch_local (target c) (call_env c) (call_req c) w w' Hsame)
      as [Hr Hc].
    rewrite Hr. f_equal. apply IH. rewrite <- Hip. exact Hc.
  - rewrite filter_cons_False by exact Hip.
    apply IH. rewrite dispatch_other by exact Hip. exact Hsame.
Qed.

(** X11. What other clients request never changes the answers a client
    gets: in any session, the answers to the calls of one client are the
    answers the same calls get when no other client calls at all. *)
Theorem clients_do_not_interfere ip calls w :
  responses_to ip calls (fst (serve calls w)) = fst (serve (calls_of ip calls) w).
Proof. apply responses_local. reflexivity. Qed.

(** ** More on the handlers *)


(** X13. What the run handler itself does to the files: when the name
    chosen for the temporary file is not in use, the unlink does not raise
    and the child leaves the files alone, the files are exactly as before
    the request, except on one path: the file was created and writing it
    raised; then the empty file stays, no child is started and the answer is
    a server error. *)
Theorem run_code_file_effect ev rq w :
  (forall name, mkstemp ev = inr name -> files w !! name = None) ->
  unlink_fault ev = None ->
  child_writes ev = ∅ ->
  child_removes ev = [] ->
  files (snd (run_code ev rq w)) = files w
  \/ exists name msg,
       mkstemp ev = inr name
       /\ files (snd (run_code ev rq w)) = <[name := []]> (files w)
       /\ ran_child (run_code ev rq) w = false
       /\ fst (run_code ev rq w) = inr (server_error msg).
Proof.
  intros Hfresh Hunlink Hwrites Hremoves.
  trace_norm.
  all: try (left; reflexivity).
  all: try congruence.
  all: rewrite ?(child_touch_idle _ _ Hwrites Hremoves) in *.
  all: absurd_exists.
  all: try (left; rewrite delete_insert_eq, delete_insert_eq;
            apply delete_id, Hfresh; reflexivity).
  all: right; eexists; eexists; repeat split; reflexivity.
Qed.

Lemma run_code_file_effect_witness :
  files (snd (run_code (quiet_env 0 Expired) (run_request hello_world) boot))
    = files boot
  \/ exists name msg,
       mkstemp (quiet_env 0 Expired) = inr name
       /\ files (snd (run_code (quiet_env 0 Expired) (run_request hello_world) boot))
          = <[name := []]> (files boot)
       /\ ran_child (run_code (quiet_env 0 Expired) (run_request hello_world)) boot
          = false
       /\ fst (run_code (quiet_env 0 Expired) (run_request hello_world) boot)
          = inr (server_error msg).
Proof.
  apply (run_code_file_effect (quiet_env 0 Expired) (run_request hello_world) boot).
  - intros name _. apply lookup_empty.
  - reflexivity.
  - reflexivity.
  - reflexivity.
Defined.

(** X14. Whenever the run handler starts a child, the request carried a
    non-empty text under "code", that text was written unchanged to the
    temporary file before the child was started, and the child is the
    interpreter called on that file alone, with a deadline of 30 seconds. *)
Theorem run_code_child_sees_submitted_code ev rq w argv t :
  In (EvRun argv t) (new_events w (snd (run_code ev rq w))) ->
  exists fields s name post,
    body rq = Json (JObj fields)
    /\ assoc (py "code") fields = Some (JStr s)
    /\ s <> []
    /\ mkstemp ev = inr name
    /\ argv = [sys_executable ev; name] /\ t = 30
    /\ new_events w (snd (run_code ev rq w))
       = EvCreate name :: EvWrite name s :: EvRun argv t :: post.
Proof.
  intros Hin. trace_norm.
  all: cbn [In] in Hin; try tauto.
  all: repeat destruct Hin as [Hin|Hin]; try discriminate; try contradiction.
  all: injection Hin as <- <-.
  all: match goal with
       | Hd : default (JStr []) (assoc _ ?fields) = JStr ?s,
         Ht : negb (truthy (JStr ?s)) = false |- _ =>
           assert (assoc (py "code") fields = Some (JStr s) /\ s <> []) as [Ha Hs]
             by (destruct (assoc (py "code") fields) as [v|]; cbn in Hd; subst;
                 [split; [reflexivity|intros ->; discriminate Ht]
                 |injection Hd as <-; discriminate Ht])
       end.
  all: do 3 eexists; eexists; repeat split; eauto.
Qed.

Lemma run_code_child_sees_submitted_code_witness :
  exists fields s name post,
    body (run_request hello_world) = Json (JObj fields)
    /\ assoc (py "code") fields = Some (JStr s)
    /\ s <> []
    /\ mkstemp (quiet_env 0 ok) = inr name
    /\ [python3; tmp_unit] = [sys_executable (quiet_env 0 ok); name] /\ 30 = 30
    /\ new_events boot (snd (run_code (quiet_env 0 ok) (run_request hello_world) boot))
       = EvCreate name :: EvWrite name s :: EvRun [python3; tmp_unit] 30 :: post.
Proof.
  apply (run_code_child_sees_submitted_code (quiet_env 0 ok)
           (run_request hello_world) boot [python3; tmp_unit] 30).
  vm_compute. right. right. left. reflexivity.
Defined.

(** X15. Whenever the install handler starts a child, it is
    [sys.executable -m pip install] followed by one more argument, with a
    deadline of 120 seconds, and that argument is non-empty and made only of
    letters, digits, hyphen, underscore, dot and square brackets: no white
    space, newline, quote or shell metacharacter reaches the argument
    vector. *)
Theorem install_argv_is_safe ev rq w argv t :
  In (EvRun argv t) (new_events w (snd (install_package ev rq w))) ->
  exists package,
    argv = [sys_executable ev; py "-m"; py "pip"; py "install"; package]
    /\ t = 120
    /\ package <> []
    /\ Forall (fun c => allowed c = true) package.
Proof.
  unfold pip_argv. trace_norm; intros Hin.
  all: cbn [In] in Hin; try tauto.
  all: repeat destruct Hin as [Hin|Hin]; try discriminate; try contradiction.
  all: injection Hin as <- <-.
  all: match goal with
       | Hs : strip ?raw = ?p, Hm : negb (re_match_package ?p) = false |- _ =>
           apply negb_false_iff in Hm; rewrite <- Hs in Hm;
           apply re_match_package_strip in Hm as [Hne Hall]; rewrite Hs in Hne, Hall
       end.
  all: eexists; repeat split; eauto.
Qed.

Lemma install_argv_is_safe_witness :
  exists package,
    pip_argv (quiet_env 0 ok) (py "requests[socks]")
      = [sys_executable (quiet_env 0 ok); py "-m"; py "pip"; py "install"; package]
    /\ 120 = 120
    /\ package <> []
    /\ Forall (fun c => allowed c = true) package.
Proof.
  apply (install_argv_is_safe (quiet_env 0 ok)
           (install_request (py "  requests[socks] ")) boot
           (pip_argv (quiet_env 0 ok) (py "requests[socks]")) 120).
  vm_compute. left. reflexivity.
Defined.

(** X16. Nothing is retried: serving one request calls [subprocess.run] at
    most once, at either handler and however the child ends. *)
Theorem one_child_per_request ev rq w :
  (runs_between w (snd (run_code ev rq w)) <= 1)%nat
  /\ (runs_between w (snd (install_package ev rq w)) <= 1)%nat.
Proof.
  unfold runs_between.
  split; trace_norm; cbn [List.filter is_run length]; lia.
Qed.

(** X17. The install handler has no temporary unit and makes no file
    system call of its own: the only calls it logs are the one call of
    [subprocess.run] and the kill inside it, and the files after the request
    are either as before or exactly what the child made of them. *)
Theorem install_package_keeps_files ev rq w :
  Forall (fun e => match e with EvRun _ _ | EvKill _ => True | _ => False end)
    (new_events w (snd (install_package ev rq w)))
  /\ (files (snd (install_package ev rq w)) = files w
      \/ ran_child (install_package ev rq) w = true
         /\ files (snd (install_package ev rq w)) = child_touch ev (files w)).
Proof.
  split; trace_norm.
  all: first [ left; reflexivity
             | right; split; reflexivity
             | repeat constructor ].
Qed.

Lemma started_then_within (pid : nat) (s : gset nat) :
  ({[pid]} ∪ s) ∖ {[pid]} ⊆ s.
Proof.
  intros x [Hx Hn]%elem_of_difference.
  apply elem_of_union in Hx as [Hx|Hx]; [contradiction|exact Hx].
Qed.

(** X18. Neither handler leaves behind a child it started: when a handler
    returns, whether the child exited, was killed at the deadline, failed to
    start or could not be read from, the live children are among those that
    were live before the request. *)
Theorem handlers_leave_no_child ev rq w :
  children (snd (run_code ev rq w)) ⊆ children w
  /\ children (snd (install_package ev rq w)) ⊆ children w.
Proof.
  split; run_paths; first [reflexivity | apply started_then_within].
Qed.

(** X19. A POST whose body is not a JSON object (no JSON at all, or a JSON
    list, text, number, boolean or null) is answered by both handlers with
    the same server error and leaves the world untouched: the text is the
    one [get_json] raised with, or the missing-attribute message for the
    type of the value. *)
Theorem malformed_body_server_error ev rq w :
  method rq = POST ->
  is_object_body (body rq) = false ->
  exists msg,
    run_code ev rq w = (inr (server_error msg), w)
    /\ install_package ev rq w = (inr (server_error msg), w)
    /\ match body rq with
       | NoJson err => msg = err
       | Json v => msg = py "'" ++ type_name v ++ py "' object has no attribute 'get'"
       end.
Proof.
  intros Hm Hb.
  unfold run_code, run_code_try, install_package, install_package_try,
    get_json, dict_get, try_except, bind, ret, raise.
  rewrite Hm. destruct (body rq) as [err|[]]; try discriminate Hb;
    eexists; repeat split; reflexivity.
Qed.

Lemma malformed_body_server_error_witness :
  exists msg,
    run_code (quiet_env 0 ok) (Request POST client (Json (JArr []))) boot
      = (inr (server_error msg), boot)
    /\ install_package (quiet_env 0 ok) (Request POST client (Json (JArr []))) boot
       = (inr (server_error msg), boot)
    /\ msg = py "'" ++ type_name (JArr []) ++ py "' object has no attribute 'get'".
Proof.
  apply (malformed_body_server_error (quiet_env 0 ok)
           (Request POST client (Json (JArr []))) boot); reflexivity.
Defined.

(** X20. Any falsy value under "code" (null, false, 0, the empty text, the
    empty list, the empty object) is answered like a missing code, and the
    world is untouched. *)
Theorem falsy_code_is_no_code ev ip fields v w :
  assoc (py "code") fields = Some v ->
  truthy v = false ->
  run_code ev (Request POST ip (Json (JObj fields))) w
    = (inr (jsonify false [] (py "No code provided")), w).
Proof.
  intros Hv Hf.
  unfold run_code, run_code_try, get_json, dict_get, try_except, bind, ret.
  cbn. rewrite Hv. cbn. rewrite Hf. reflexivity.
Qed.

Lemma falsy_code_is_no_code_witness :
  run_code (quiet_env 0 ok) (post_json [(py "code", JNull)]) boot
    = (inr (jsonify false [] (py "No code provided")), boot).
Proof.
  apply (falsy_code_is_no_code (quiet_env 0 ok) client [(py "code", JNull)] JNull boot);
    reflexivity.
Defined.

(** X21. A truthy value under "code" that is not a text (a number, true, a
    non-empty list or object) is not rejected by the validation: the
    temporary file is created, writing raises, no child is started, and the
    answer is a server error that names the type of the value. *)
Theorem non_text_code_is_server_error ev ip fields v name w :
  assoc (py "code") fields = Some v ->
  truthy v = true ->
  is_text v = false ->
  mkstemp ev = inr name ->
  run_code ev (Request POST ip (Json (JObj fields))) w
    = (inr (server_error (py "write() argument must be str, not " ++ type_name v)),
       World (rate_limit_cache w) (<[name := []]> (files w)) (children w)
         (trace w ++ [EvCreate name])).
Proof.
  intros Hv Ht Hx Hn.
  unfold run_code, run_code_try, get_json, dict_get, NamedTemporaryFile, file_write,
    try_except, try_finally, set_files, log, modify, bind, ret, raise.
  cbn. rewrite Hv. cbn. rewrite Ht, Hn. cbn.
  destruct v; try discriminate Hx; reflexivity.
Qed.

Lemma non_text_code_is_server_error_witness :
  run_code (quiet_env 0 ok) (post_json [(py "code", JNum 123)]) boot
    = (inr (server_error (py "write() argument must be str, not int")),
       World ∅ {[tmp_unit := []]} ∅ [EvCreate tmp_unit]).
Proof.
  apply (non_text_code_is_server_error (quiet_env 0 ok) client
           [(py "code", JNum 123)] (JNum 123) tmp_unit boot); reflexivity.
Defined.

Lemma lstrip_blank s : Forall (fun c => isspace c = true) s -> lstrip s = [].
Proof. induction 1 as [|c s Hc _ IH]; cbn; [reflexivity|]. rewrite Hc. exact IH. Qed.

Lemma strip_blank s : Forall (fun c => isspace c = true) s -> strip s = [].
Proof. intros H. unfold strip. rewrite lstrip_blank by exact H. reflexivity. Qed.

(** X22. A request without "package", or whose package text is empty or
    white space only, is answered "No package name provided"; the world is
    untouched. *)
Theorem blank_package_is_no_package ev ip fields w :
  assoc (py "package") fields = None
  \/ (exists raw, assoc (py "package") fields = Some (JStr raw)
                  /\ Forall (fun c => isspace c = true) raw) ->
  install_package ev (Request POST ip (Json (JObj fields))) w
    = (inr (jsonify false [] (py "No package name provided")), w).
Proof.
  intros Hp.
  unfold install_package, install_package_try, get_json, dict_get, str_strip,
    try_except, bind, ret.
  cbn. destruct Hp as [-> | (raw & -> & Hblank)]; cbn.
  - reflexivity.
  - rewrite strip_blank by exact Hblank. reflexivity.
Qed.

Lemma blank_package_is_no_package_witness :
  install_package (quiet_env 0 ok) (post_json []) boot
    = (inr (jsonify false [] (py "No package name provided")), boot)
  /\ install_package (quiet_env 0 ok) (install_request [32%N; 9%N; 10%N]) boot
     = (inr (jsonify false [] (py "No package name provided")), boot).
Proof.
  split.
  - apply (blank_package_is_no_package (quiet_env 0 ok) client [] boot).
    left. reflexivity.
  - apply (blank_package_is_no_package (quiet_env 0 ok) client
             [(py "package", JStr [32%N; 9%N; 10%N])] boot).
    right. exists [32%N; 9%N; 10%N]. split; [reflexivity|].
    repeat constructor.
Defined.

(** X23. A value under "package" that is not a text (null, a number, a
    list, ...) is answered with the server error of the missing [strip]
    attribute, naming the type of the value; the world is untouched. *)
Theorem non_text_package_is_server_error ev ip fields v w :
  assoc (py "package") fields = Some v ->
  is_text v = false ->
  install_package ev (Request POST ip (Json (JObj fields))) w
    = (inr (server_error
              (py "'" ++ type_name v ++ py "' object has no attribute 'strip'")),
       w).
Proof.
  intros Hv Hx.
  unfold install_package, install_package_try, get_json, dict_get, str_strip,
    try_except, bind, ret, raise.
  cbn. rewrite Hv. cbn. destruct v; try discriminate Hx; reflexivity.
Qed.

Lemma non_text_package_is_server_error_witness :
  install_package (quiet_env 0 ok) (post_json [(py "package", JNull)]) boot
    = (inr (server_error (py "'NoneType' object has no attribute 'strip'")), boot).
Proof.
  apply (non_text_package_is_server_error (quiet_env 0 ok) client
           [(py "package", JNull)] JNull boot); reflexivity.
Defined.

(** ** More on stripping and the pattern *)

Lemma lstrip_split s :
  exists pre, s = pre ++ lstrip s /\ Forall (fun c => isspace c = true) pre.
Proof.
  induction s as [|c s (pre & Hs & Hpre)]; cbn.
  - exists []. split; [reflexivity|constructor].
  - destruct (isspace c) eqn:Hc.
    + exists (c :: pre). split; [cbn; f_equal; exact Hs|constructor; assumption].
    + exists []. split; [reflexivity|constructor].
Qed.

Lemma rstrip_split s :
  exists suf, s = rstrip s ++ suf /\ Forall (fun c => isspace c = true) suf.
Proof.
  unfold rstrip. destruct (lstrip_split (rev s)) as (pre & Hs & Hpre).
  exists (rev pre). split.
  - rewrite <- rev_app_distr, <- Hs, rev_involutive. reflexivity.
  - apply Forall_forall. intros c Hc. rewrite Forall_forall in Hpre.
    apply Hpre. apply list_elem_of_In. apply list_elem_of_In in Hc.
    apply in_rev. exact Hc.
Qed.

Lemma strip_head s c p : strip s = c :: p -> isspace c = false.
Proof.
  unfold strip. intros H.
  destruct (rstrip_split (lstrip s)) as (suf & Hs & _).
  rewrite H in Hs. cbn in Hs. eapply lstrip_head. exact Hs.
Qed.

(** X24. [strip] removes a run of white space at each end and nothing else:
    the text is a white-space prefix, the stripped text and a white-space
    suffix, and the stripped text neither begins nor ends with white
    space. *)
Theorem strip_spec s :
  (exists pre suf,
      s = pre ++ strip s ++ suf
      /\ Forall (fun c => isspace c = true) pre
      /\ Forall (fun c => isspace c = true) suf)
  /\ (forall c p, strip s = c :: p -> isspace c = false)
  /\ (forall p c, strip s = p ++ [c] -> isspace c = false).
Proof.
  split; [|split].
  - destruct (lstrip_split s) as (pre & Hs & Hpre).
    destruct (rstrip_split (lstrip s)) as (suf & Hl & Hsuf).
    exists pre, suf. unfold strip. rewrite <- Hl. auto.
  - apply strip_head.
  - apply strip_last.
Qed.

Lemma strip_spec_witness :
  isspace 110 = false /\ isspace 121 = false.
Proof.
  destruct (strip_spec (py "  numpy ")) as (_ & Hhead & Hlast).
  split.
  - apply (Hhead 110%N (py "umpy")). vm_compute. reflexivity.
  - apply (Hlast (py "nump") 121%N). vm_compute. reflexivity.
Defined.

(** X25. Stripping twice is stripping once. *)
Theorem strip_idempotent s : strip (strip s) = strip s.
Proof.
  destruct (strip s) as [|c p] eqn:Hs; [reflexivity|].
  rewrite <- Hs. unfold strip at 1, rstrip.
  rewrite (lstrip_id (strip s)) by (rewrite Hs; eapply strip_head; exact Hs).
  rewrite lstrip_id; [apply rev_involutive|].
  destruct (rev (strip s)) as [|d r] eqn:Hr; [exact I|].
  apply (strip_last s (rev r)).
  rewrite <- (rev_involutive (strip s)), Hr. reflexivity.
Qed.

(** X26. On its own the pattern also accepts a valid name followed by one
    newline, a character outside the class, because [$] matches before a
    final newline.  The install handler never hands it such a text: what
    [strip] returns does not end with a newline. *)
Theorem pattern_accepts_final_newline q :
  q <> [] ->
  Forall (fun c => allowed c = true) q ->
  re_match_package (q ++ [10%N]) = true
  /\ allowed 10 = false
  /\ (forall raw, strip raw <> q ++ [10%N]).
Proof.
  intros Hq Hall. split; [|split].
  - unfold re_match_package. rewrite span_allowed_app by auto.
    destruct q; [congruence|reflexivity].
  - reflexivity.
  - intros raw Hs. apply strip_last in Hs. discriminate Hs.
Qed.

Lemma pattern_accepts_final_newline_witness :
  re_match_package (py "numpy" ++ [10%N]) = true
  /\ allowed 10 = false
  /\ (forall raw, strip raw <> py "numpy" ++ [10%N]).
Proof.
  apply (pattern_accepts_final_newline (py "numpy")).
  - vm_compute. discriminate.
  - vm_compute. repeat constructor.
Defined.
